(** * Transcript content normalisation of the chat viewer

    A shallow embedding of the TypeScript sources

    - [src/utils/textProcessing.ts]      ([processBackspaces]),
    - [src/components/MessageRenderer.tsx] ([ContentBlockRenderer],
      the todo extraction of [ToolResultBlock]),
    - [src/components/AppSidebar.tsx]    ([filteredResults],
      [handleSearchResultClick]),

    together with the properties the specification states about them.

    JavaScript strings are modelled by [string]; one [ascii] stands for one
    code unit, which is what [text[i]], [slice] and [length] count.  Values
    of type [any] and parsed JSON are modelled by [jsval]; numbers are IEEE
    doubles, as in the language. *)

From Stdlib Require Import Bool List Arith Lia ZArith.
From Stdlib Require Import Strings.Ascii Strings.String DecimalString.
From Stdlib Require Import Floats.PrimFloat.
From stdpp Require Import base decidable option list sets gmap strings.

Local Open Scope string_scope.

(* stdpp freezes [String.append] under [simpl]; the string lemmas below
   compute with it. *)
#[local] Arguments String.append !s1 s2 : simpl nomatch.

(** ** JavaScript strings *)

Module JsString.

(** [s.includes(sub)]: does [sub] occur in [s] as a contiguous run. *)
Fixpoint includes (s sub : string) : bool :=
  String.prefix sub s ||
  match s with
  | EmptyString => false
  | String _ s' => includes s' sub
  end.

(** [s.slice(0, -1)]: everything but the last code unit. *)
Definition slice_0_m1 (s : string) : string :=
  String.substring 0 (String.length s - 1) s.

(** [s.slice(0, n)] for [n >= 0]. *)
Definition slice_0 (n : nat) (s : string) : string :=
  String.substring 0 n s.

(** [s += c] *)
Definition push (s : string) (c : ascii) : string :=
  s ++ String c EmptyString.

End JsString.

(** The backspace control character, code point 8, written ['\b'] in the
    source. *)
Definition BS : ascii := Ascii.ascii_of_nat 8.

(** ** [src/utils/textProcessing.ts] *)

(** The body of the [for] loop of [processBackspaces]: [i] is the loop
    counter, [result] the accumulator, and [n] bounds the remaining
    iterations ([text.length - i] at the call). *)
Fixpoint processBackspaces_loop
    (text : string) (n i : nat) (result : string) : string :=
  match n with
  | O => result
  | S n' =>
      match String.get i text with
      | None => result                       (* i < text.length fails *)
      | Some char =>
          if Ascii.eqb char BS then
            if Nat.ltb 0 (String.length result)
            then processBackspaces_loop text n' (S i) (JsString.slice_0_m1 result)
            else processBackspaces_loop text n' (S i) result
          else processBackspaces_loop text n' (S i) (JsString.push result char)
      end
  end.

Definition processBackspaces (text : string) : string :=
  if negb (JsString.includes text (String BS EmptyString)) then text
  else processBackspaces_loop text (String.length text) 0 EmptyString.

(** ** JavaScript values *)

#[warnings="-register-all"]
Inductive jsval : Type :=
| JUndefined
| JNull
| JBool (b : bool)
| JNum (x : float)
| JStr (s : string)
| JArr (items : list jsval)
| JObj (props : list (string * jsval)).

Definition truthy (v : jsval) : bool :=
  match v with
  | JUndefined | JNull => false
  | JBool b => b
  | JNum x => negb (PrimFloat.eqb x PrimFloat.zero || PrimFloat.is_nan x)
  | JStr s => negb (String.eqb s "")
  | JArr _ | JObj _ => true
  end.

(** ** Exceptions

    Code that may throw returns [exc]; [try_catch] is [try { } catch { }]. *)

Inductive js_error : Type := TypeError | SyntaxError.

Inductive exc (A : Type) : Type :=
| Ok (a : A)
| Throw (e : js_error).
Arguments Ok {A} a.
Arguments Throw {A} e.

#[global] Instance exc_ret : MRet exc := fun A a => Ok a.
#[global] Instance exc_bind : MBind exc := fun A B k m =>
  match m with
  | Ok a => k a
  | Throw e => Throw e
  end.

Definition try_catch {A : Type} (body : exc A) (handler : js_error -> exc A)
  : exc A :=
  match body with
  | Ok a => Ok a
  | Throw e => handler e
  end.

(** ** Property access and operators on [jsval]

    An object is the list of its own properties, keys pairwise distinct,
    in the order in which [Object.keys] enumerates them. *)

Module Js.

Fixpoint lookup_prop (key : string) (props : list (string * jsval)) : jsval :=
  match props with
  | [] => JUndefined
  | (k, v) :: rest => if String.eqb key k then v else lookup_prop key rest
  end.

(** [v.key], for the keys this program reads ([block_type], [type], [text],
    [name], [input], [tool_use_id], [content], [tool_use_result],
    [thinking], [newTodos]): none of them is a built-in property of a
    string, number, boolean or array, so on those the read is [undefined];
    on [undefined] and [null] it throws. *)
Definition get (v : jsval) (key : string) : exc jsval :=
  match v with
  | JUndefined | JNull => Throw TypeError
  | JObj props => Ok (lookup_prop key props)
  | JBool _ | JNum _ | JStr _ | JArr _ => Ok JUndefined
  end.

(** [a || b] with both operands already evaluated. *)
Definition or (a b : jsval) : jsval := if truthy a then a else b.

(** [v === "lit"] *)
Definition is_str (v : jsval) (lit : string) : bool :=
  match v with
  | JStr s => String.eqb s lit
  | _ => false
  end.

(** [Array.isArray(v)] *)
Definition isArray (v : jsval) : bool :=
  match v with
  | JArr _ => true
  | _ => false
  end.

Definition index_keys (n : nat) : list string :=
  map (fun i => NilEmpty.string_of_uint (Nat.to_uint i)) (seq 0 n).

(** [Object.keys(v)] *)
Definition Object_keys (v : jsval) : exc (list string) :=
  match v with
  | JUndefined | JNull => Throw TypeError
  | JObj props => Ok (map fst props)
  | JStr s => Ok (index_keys (String.length s))
  | JArr items => Ok (index_keys (List.length items))
  | JBool _ | JNum _ => Ok []
  end.

(** [v?.includes(marker)] with a string [marker]: [undefined] on a missing
    receiver, substring search on a string, element search on an array,
    and a [TypeError] on anything else, which has no such method. *)
Definition opt_includes (v : jsval) (marker : string) : exc jsval :=
  match v with
  | JUndefined | JNull => Ok JUndefined
  | JStr s => Ok (JBool (JsString.includes s marker))
  | JArr items => Ok (JBool (existsb (fun x => is_str x marker) items))
  | JBool _ | JNum _ | JObj _ => Throw TypeError
  end.

(** The longest prefix of [s] that ends in [c], if [c] occurs in [s]. *)
Fixpoint through_last (c : ascii) (s : string) : option string :=
  match s with
  | EmptyString => None
  | String a rest =>
      match through_last c rest with
      | Some t => Some (String a t)
      | None => if Ascii.eqb a c then Some (String a EmptyString) else None
      end
  end.

(** The regular expression [/\{[\s\S]*\}/] on a string: the leftmost
    position holding an opening brace from which a match exists, the
    starred class taking as much as it can (it accepts every code unit)
    before the closing brace.  The result is [jsonMatch[0]]. *)
Fixpoint match_braces (s : string) : option string :=
  match s with
  | EmptyString => None
  | String a rest =>
      if Ascii.eqb a "{"%char then
        match through_last "}"%char rest with
        | Some t => Some (String a t)
        | None => match_braces rest
        end
      else match_braces rest
  end.

(** [v.match(/\{[\s\S]*\}/)]; only strings have the method. *)
Definition str_match (v : jsval) : exc (option string) :=
  match v with
  | JStr s => Ok (match_braces s)
  | _ => Throw TypeError
  end.

End Js.

(** ** [src/components/MessageRenderer.tsx] *)

(** What [ContentBlockRenderer] returns: one of the four block components
    with its props, or the debug panel of the [default] case, which shows
    the resolved tag, [Object.keys(block)] and the block itself (printed by
    [JSON.stringify], which cannot fail on a [jsval]: it has no cycles). *)
Inductive Element : Type :=
| MessageText (content : jsval)
| ToolUseBlock (block : jsval)
| ToolResultBlock (block : jsval)
| ThinkingBlock (block : jsval)
| UnknownBlock (blockType : jsval) (keys : list string) (block : jsval).

(** [block.block_type || (block as any).type || "unknown"] *)
Definition blockType (block : jsval) : exc jsval :=
  block_type ← Js.get block "block_type";
  if truthy block_type then mret block_type
  else
    type ← Js.get block "type";
    mret (Js.or type (JStr "unknown")).

Definition ContentBlockRenderer (block : jsval) : exc Element :=
  tag ← blockType block;
  if Js.is_str tag "text" then
    text ← Js.get block "text";
    mret (MessageText (Js.or text (JStr "")))
  else if Js.is_str tag "tool_use" then mret (ToolUseBlock block)
  else if Js.is_str tag "tool_result" then mret (ToolResultBlock block)
  else if Js.is_str tag "thinking" then mret (ThinkingBlock block)
  else
    keys ← Js.Object_keys block;
    mret (UnknownBlock tag keys block).

(** The body of [ThinkingBlock]: [block.thinking] handed to [MessageText]
    when it is truthy, the "No thinking content" notice ([None])
    otherwise. *)
Definition ThinkingBlock_content (block : jsval) : exc (option jsval) :=
  thinking ← Js.get block "thinking";
  mret (if truthy thinking then Some thinking else None).

Definition MARKER_MODIFIED : string := "Todos have been modified successfully".
Definition MARKER_TODO_LIST : string := "todo list".

(** [isTodoResult] of [ToolResultBlock]:
    [block.content?.includes(..) || block.content?.includes(..)]. *)
Definition isTodoResult (block : jsval) : exc jsval :=
  content ← Js.get block "content";
  first ← Js.opt_includes content MARKER_MODIFIED;
  if truthy first then mret first
  else Js.opt_includes content MARKER_TODO_LIST.

Section TodoData.

(** [JSON.parse] belongs to the language runtime; it returns the parsed
    value or throws a [SyntaxError]. *)
Variable JSON_parse : string -> exc jsval.

(** The [try] block of [ToolResultBlock], with [content] the value of
    [block.content]: the value assigned to [todoData], or [null] when no
    assignment is reached. *)
Definition todoData_from_content (content : jsval) : exc jsval :=
  jsonMatch ← Js.str_match content;
  match jsonMatch with
  | Some matched =>
      parsed ← JSON_parse matched;
      newTodos ← Js.get parsed "newTodos";
      if truthy newTodos && Js.isArray newTodos then mret newTodos
      else mret JNull
  | None => mret JNull
  end.

(** The value of the variable [todoData] of [ToolResultBlock] once the
    extraction (source lines 272 to 293) has run: [null] or the task list.
    Reading a property of the block has no effect, so each is read once. *)
Definition todoData (block : jsval) : exc jsval :=
  isTodo ← isTodoResult block;
  if truthy isTodo then
    tool_use_result ← Js.get block "tool_use_result";
    structured ←
      (if truthy tool_use_result then Js.get tool_use_result "newTodos"
       else mret tool_use_result);
    if truthy structured then mret structured
    else
      content ← Js.get block "content";
      if truthy content then
        try_catch (todoData_from_content content) (fun _ => mret JNull)
      else mret JNull
  else mret JNull.

End TodoData.

(** ** [src/types/chat.ts] and [src/components/AppSidebar.tsx] *)

Module ChatSession.
Record t : Type := Build {
  id : string;
  title : string;
  timestamp : string;
  project_path : string;
  message_count : Z;
  last_updated : string
}.
End ChatSession.

Module ProjectFolder.
Record t : Type := Build {
  name : string;
  path : string;
  chat_sessions : list ChatSession.t
}.
End ProjectFolder.

Module SearchResult.
Record t : Type := Build {
  session_id : string;
  message_uuid : string;
  snippet : string;
  match_type : string
}.
End SearchResult.

Definition ALL_MATCH_TYPES : list string :=
  ["content"; "thinking"; "tool_name"; "tool_input"; "tool_result";
   "tool_structured_result"].

(** [searchResults?.filter(result => activeFilters.has(result.match_type))];
    [searchResults] is [undefined] ([None]) until the query has loaded. *)
Definition filteredResults
    (searchResults : option (list SearchResult.t)) (activeFilters : gset string)
  : option (list SearchResult.t) :=
  (fun results =>
     filter (fun result => SearchResult.match_type result ∈ activeFilters)
            results) <$> searchResults.

(** The wall clock: [readings k] is what the [k]-th
    [new Date().toISOString()] of a run returns; [taken] counts the
    readings made so far. *)
Record Clock : Type := { readings : nat -> string; taken : nat }.

Definition Date_toISOString (c : Clock) : string * Clock :=
  (readings c (taken c), {| readings := readings c; taken := S (taken c) |}).

(** The [for .. of] loop of [handleSearchResultClick]. *)
Fixpoint find_session (session_id : string) (projects : list ProjectFolder.t)
  : option ChatSession.t :=
  match projects with
  | [] => None
  | project :: rest =>
      match List.find (fun s => String.eqb (ChatSession.id s) session_id)
                      (ProjectFolder.chat_sessions project) with
      | Some session => Some session
      | None => find_session session_id rest
      end
  end.

(** [handleSearchResultClick]: the session handed to [onSelectSession],
    and the clock afterwards.  [projects] is [undefined] ([None]) until the
    project list has loaded. *)
Definition handleSearchResultClick
    (projects : option (list ProjectFolder.t)) (result : SearchResult.t)
    (c : Clock) : ChatSession.t * Clock :=
  match (match projects with
         | Some ps => find_session (SearchResult.session_id result) ps
         | None => None
         end) with
  | Some session => (session, c)
  | None =>
      let title :=
        "Search Result: " ++
        JsString.slice_0 50 (SearchResult.snippet result) ++ "..." in
      let '(timestamp, c1) := Date_toISOString c in
      let '(last_updated, c2) := Date_toISOString c1 in
      ({| ChatSession.id := SearchResult.session_id result;
          ChatSession.title := title;
          ChatSession.timestamp := timestamp;
          ChatSession.project_path := "";
          ChatSession.message_count := 0%Z;
          ChatSession.last_updated := last_updated |}, c2)
  end.

(** The tags [ContentBlockRenderer] has a [case] for. *)
Definition known_tag (tag : jsval) : bool :=
  Js.is_str tag "text" || Js.is_str tag "tool_use" ||
  Js.is_str tag "tool_result" || Js.is_str tag "thinking".

(** A string-typed optional field is absent ([undefined], or [null] as the
    backend may serialise it) or empty. *)
Definition absent_or_empty (v : jsval) : Prop :=
  v = JUndefined \/ v = JNull \/ v = JStr "".

(** ** Task extraction as the specification words it *)

(** Step 1, detection: one of the two markers occurs in the raw text. *)
Definition has_marker (rawText : string) : bool :=
  JsString.includes rawText MARKER_MODIFIED ||
  JsString.includes rawText MARKER_TODO_LIST.

(** The [newTodos] field of a structured payload, when the payload is
    there to carry one. *)
Definition structured_newTodos (payload : jsval) : jsval :=
  if truthy payload then
    match payload with
    | JObj fields => Js.lookup_prop "newTodos" fields
    | _ => JUndefined
    end
  else payload.

(** Step 2 (b), the scraped path: the text from the first opening brace
    to the last closing brace is parsed, and the [newTodos] field of the
    parsed value is the task list when it is a sequence; anything else,
    a failed parse included, is absent. *)
Definition scraped_tasks (parse : string -> exc jsval) (rawText : string)
  : jsval :=
  match Js.match_braces rawText with
  | None => JNull
  | Some blob =>
      match parse blob with
      | Ok (JObj fields) =>
          match Js.lookup_prop "newTodos" fields with
          | JArr tasks => JArr tasks
          | _ => JNull
          end
      | _ => JNull
      end
  end.

(** The type [content?: string] of the block interface. *)
Definition content_is_text (v : jsval) : Prop :=
  match v with
  | JUndefined | JNull | JStr _ => True
  | _ => False
  end.

(** Occurrence of a code unit in a string. *)
Definition occurs (c : ascii) (s : string) : Prop :=
  In c (list_ascii_of_string s).

(** A raw text that carries a marker and an embedded JSON document, and a
    stand-in for [JSON.parse] that reads that one document and rejects
    every other text; they instantiate the theorems on the extractor. *)
Definition QUOTE : string := String (Ascii.ascii_of_nat 34) EmptyString.

Definition sample_blob : string :=
  "{" ++ QUOTE ++ "newTodos" ++ QUOTE ++ ":[]}".

Definition sample_rawText : string :=
  "Todos have been modified successfully " ++ sample_blob.

Definition sample_parse (text : string) : exc jsval :=
  if String.eqb text sample_blob then Ok (JObj [("newTodos", JArr [])])
  else Throw SyntaxError.

(** ** Search results as the specification words them *)

(** [kept_in_order active results out]: [out] is [results] with exactly
    the elements whose match type is outside [active] left out, the others
    in their order. *)
Inductive kept_in_order (active : gset string)
  : list SearchResult.t -> list SearchResult.t -> Prop :=
| kept_nil : kept_in_order active [] []
| kept_keep (r : SearchResult.t) (rs out : list SearchResult.t) :
    SearchResult.match_type r ∈ active ->
    kept_in_order active rs out ->
    kept_in_order active (r :: rs) (r :: out)
| kept_drop (r : SearchResult.t) (rs out : list SearchResult.t) :
    SearchResult.match_type r ∉ active ->
    kept_in_order active rs out ->
    kept_in_order active (r :: rs) out.

(** The data model of the specification restricts the match type of a
    search result to the fixed enumeration; the TypeScript field is a
    plain [string]. *)
Definition in_enumeration (r : SearchResult.t) : Prop :=
  SearchResult.match_type r ∈ ALL_MATCH_TYPES.

(** The sessions of all projects in scan order. *)
Definition all_sessions (projects : list ProjectFolder.t)
  : list ChatSession.t :=
  List.concat (List.map ProjectFolder.chat_sessions projects).

(** The placeholder session of the resolver. *)
Definition placeholder (result : SearchResult.t) (now1 now2 : string)
  : ChatSession.t :=
  {| ChatSession.id := SearchResult.session_id result;
     ChatSession.title :=
       "Search Result: " ++
       JsString.slice_0 50 (SearchResult.snippet result) ++ "...";
     ChatSession.timestamp := now1;
     ChatSession.project_path := "";
     ChatSession.message_count := 0%Z;
     ChatSession.last_updated := now2 |}.

(** Two search hits that instantiate the theorems on the sidebar. *)
Definition hit_content : SearchResult.t :=
  {| SearchResult.session_id := "s-2"; SearchResult.message_uuid := "m-1";
     SearchResult.snippet := "fix the parser"; SearchResult.match_type := "content" |}.

Definition hit_tool : SearchResult.t :=
  {| SearchResult.session_id := "s-9"; SearchResult.message_uuid := "m-4";
     SearchResult.snippet := "grep"; SearchResult.match_type := "tool_name" |}.

(** Two projects and a clock for the same purpose. *)
Definition session_of (id : string) : ChatSession.t :=
  {| ChatSession.id := id; ChatSession.title := "chat " ++ id;
     ChatSession.timestamp := "2025-01-01T00:00:00.000Z";
     ChatSession.project_path := "/work"; ChatSession.message_count := 3%Z;
     ChatSession.last_updated := "2025-01-02T00:00:00.000Z" |}.

Definition sample_projects : list ProjectFolder.t :=
  [ {| ProjectFolder.name := "a"; ProjectFolder.path := "/a";
       ProjectFolder.chat_sessions := [session_of "s-1"] |};
    {| ProjectFolder.name := "b"; ProjectFolder.path := "/b";
       ProjectFolder.chat_sessions := [session_of "s-2"; session_of "s-3"] |} ].

Definition sample_clock : Clock :=
  {| readings := fun k => match k with
                          | O => "2025-03-01T10:00:00.000Z"
                          | S _ => "2025-03-01T10:00:00.001Z"
                          end;
     taken := 0 |}.

(** ** Text repair as the specification words it

    One pass from left to right over the input with an output buffer: a
    backspace removes the character appended last, if there is one; any
    other character is appended unchanged. *)

Fixpoint drop_last (buf : string) : string :=
  match buf with
  | EmptyString => EmptyString
  | String _ EmptyString => EmptyString
  | String c rest => String c (drop_last rest)
  end.

Definition repair_step (buf : string) (c : ascii) : string :=
  if Ascii.eqb c BS then drop_last buf else buf ++ String c EmptyString.

Definition repair_spec (raw : string) : string :=
  fold_left repair_step (list_ascii_of_string raw) EmptyString.

(** A string is free of backspaces when none of its code units is [BS]. *)
Definition bs_free (s : string) : Prop := ~ In BS (list_ascii_of_string s).

(** ** More of [src/components/AppSidebar.tsx]: the filter state *)

(** The update [toggleFilter] hands to [setActiveFilters]: a copy of the
    previous set with [matchType] deleted when present, added otherwise. *)
Definition toggleFilter (matchType : string) (prev : gset string)
  : gset string :=
  if decide (matchType ∈ prev) then prev ∖ {[matchType]}
  else prev ∪ {[matchType]}.

(** [toggleAllFilters]: the new set, given the current [activeFilters]. *)
Definition toggleAllFilters (activeFilters : gset string) : gset string :=
  if Nat.eqb (size activeFilters) (List.length ALL_MATCH_TYPES) then ∅
  else list_to_set ALL_MATCH_TYPES.

(** [clearFilters] *)
Definition clearFilters (activeFilters : gset string) : gset string :=
  list_to_set ALL_MATCH_TYPES.

(** What the user can do to the filter set: tick one of the check boxes,
    which the component draws for the entries of [ALL_MATCH_TYPES] only,
    press "All"/"None", or press "Clear". *)
Inductive FilterAction : Type :=
| Toggle (matchType : string)
| ToggleAll
| Clear.

Definition filter_step (a : FilterAction) (activeFilters : gset string)
  : gset string :=
  match a with
  | Toggle matchType => toggleFilter matchType activeFilters
  | ToggleAll => toggleAllFilters activeFilters
  | Clear => clearFilters activeFilters
  end.

(** The filter sets the component can hold: [useState] starts it at
    [new Set(ALL_MATCH_TYPES)]. *)
Inductive filter_reachable : gset string -> Prop :=
| reach_initial : filter_reachable (list_to_set ALL_MATCH_TYPES)
| reach_toggle (matchType : string) (s : gset string) :
    matchType ∈ ALL_MATCH_TYPES ->
    filter_reachable s -> filter_reachable (toggleFilter matchType s)
| reach_toggle_all (s : gset string) :
    filter_reachable s -> filter_reachable (toggleAllFilters s)
| reach_clear (s : gset string) :
    filter_reachable s -> filter_reachable (clearFilters s).

(** The "Clear" button and the count badge are drawn when
    [activeFilters.size < ALL_MATCH_TYPES.length]. *)
Definition clear_button_shown (activeFilters : gset string) : bool :=
  Nat.ltb (size activeFilters) (List.length ALL_MATCH_TYPES).

Inductive Icon : Type := MessageCircle | Brain | Wrench | FileText | Hash.

Definition getMatchTypeIcon (matchType : string) : Icon :=
  if String.eqb matchType "content" then MessageCircle
  else if String.eqb matchType "thinking" then Brain
  else if String.eqb matchType "tool_name" then Wrench
  else if String.eqb matchType "tool_input" then Wrench
  else if String.eqb matchType "tool_result" then FileText
  else if String.eqb matchType "tool_structured_result" then FileText
  else Hash.

Definition getMatchTypeColor (matchType : string) : string :=
  if String.eqb matchType "content" then
    "bg-blue-100 text-blue-800 dark:bg-blue-800/50 dark:text-blue-200"
  else if String.eqb matchType "thinking" then
    "bg-purple-100 text-purple-800 dark:bg-purple-800/50 dark:text-purple-200"
  else if String.eqb matchType "tool_name" then
    "bg-green-100 text-green-800 dark:bg-green-800/50 dark:text-green-200"
  else if String.eqb matchType "tool_input" then
    "bg-orange-100 text-orange-800 dark:bg-orange-800/50 dark:text-orange-200"
  else if String.eqb matchType "tool_result" then
    "bg-purple-100 text-purple-800 dark:bg-purple-800/50 dark:text-purple-200"
  else if String.eqb matchType "tool_structured_result" then
    "bg-indigo-100 text-indigo-800 dark:bg-indigo-800/50 dark:text-indigo-200"
  else "bg-gray-100 text-gray-800 dark:bg-gray-600/50 dark:text-gray-200".

Definition getMatchTypeLabel (matchType : string) : string :=
  if String.eqb matchType "content" then "Message"
  else if String.eqb matchType "thinking" then "Thinking"
  else if String.eqb matchType "tool_name" then "Tool"
  else if String.eqb matchType "tool_input" then "Input"
  else if String.eqb matchType "tool_result" then "Result"
  else if String.eqb matchType "tool_structured_result" then "Data"
  else "Match".

(** A length as a template literal prints it. *)
Definition decimal (n : nat) : string :=
  NilEmpty.string_of_uint (Nat.to_uint n).

(** The count after "Search Results" (source lines 282 to 284); nothing
    while [searchResults] is [undefined]. *)
Definition resultsCount
    (searchResults : option (list SearchResult.t)) (activeFilters : gset string)
  : option string :=
  match searchResults, filteredResults searchResults activeFilters with
  | Some results, Some filtered =>
      Some (" (" ++ decimal (List.length filtered) ++
            (if negb (Nat.eqb (List.length filtered) (List.length results))
             then " of " ++ decimal (List.length results) else "") ++ ")")
  | _, _ => None
  end.

(** The body of the result list (source lines 287 to 340). *)
Inductive ResultsBody : Type :=
| Searching
| NoMatchForFilters (available : string)
| NoResultsFor (query : string)
| StartTyping
| ResultItems (items : list SearchResult.t).

Definition resultsBody
    (isLoading : bool) (debouncedQuery : string)
    (searchResults : option (list SearchResult.t)) (activeFilters : gset string)
  : ResultsBody :=
  if isLoading then Searching
  else
    match filteredResults searchResults activeFilters with
    | Some (item :: items) => ResultItems (item :: items)
    | _ =>
        if negb (String.eqb debouncedQuery "") then
          match searchResults with
          | Some (r :: rs) =>
              NoMatchForFilters
                (decimal (List.length (r :: rs)) ++ " result" ++
                 (if negb (Nat.eqb (List.length (r :: rs)) 1) then "s" else "")
                 ++ " available")
          | _ => NoResultsFor debouncedQuery
          end
        else StartTyping
    end.

(** The characters [highlightText] escapes in the query,
    [/[.*+?^${}()|[\]\\]/g]. *)
Definition regex_special (c : ascii) : bool :=
  existsb (Ascii.eqb c) (list_ascii_of_string ".*+?^${}()|[]\").

(** [query.replace(/[.*+?^${}()|[\]\\]/g, '\\$&')]: a backslash before
    every special character. *)
Fixpoint escapeRegExp (query : string) : string :=
  match query with
  | EmptyString => EmptyString
  | String c rest =>
      if regex_special c then String "\"%char (String c (escapeRegExp rest))
      else String c (escapeRegExp rest)
  end.

(** ** Regular-expression patterns that spell a literal

    The syntax characters of a pattern are [^ $ \ . * + ? ( ) [ ] { } |];
    every other character matches itself, and a backslash before a
    syntax character makes it match itself.  [literal_of_pattern p] is
    the text [p] matches when [p] uses nothing else. *)
Definition SyntaxCharacter (c : ascii) : bool :=
  existsb (Ascii.eqb c) (list_ascii_of_string "^$\.*+?()[]{}|").

Fixpoint literal_of_pattern (p : string) : option string :=
  match p with
  | EmptyString => Some EmptyString
  | String c rest =>
      if Ascii.eqb c "\"%char then
        match rest with
        | String d rest' =>
            if SyntaxCharacter d
            then option_map (String d) (literal_of_pattern rest')
            else None
        | EmptyString => None
        end
      else if SyntaxCharacter c then None
      else option_map (String c) (literal_of_pattern rest)
  end.

(** ** [ChatViewer]: the project label *)

(** [s.split(sep)] for a separator of one code unit. *)
Fixpoint split_on (sep : ascii) (s : string) : list string :=
  match s with
  | EmptyString => [EmptyString]
  | String c rest =>
      if Ascii.eqb c sep then EmptyString :: split_on sep rest
      else
        match split_on sep rest with
        | piece :: pieces => String c piece :: pieces
        | [] => [String c EmptyString]
        end
  end.

(** [project_path.split('\\').pop() || project_path] *)
Definition projectLabel (project_path : string) : string :=
  let last_piece := List.last (split_on "\"%char project_path) EmptyString in
  if negb (String.eqb last_piece "") then last_piece else project_path.

(** ** Arrays with callbacks that may throw *)

(** [items.filter(callback)]: the callback runs on the items from left to
    right; an exception ends the call. *)
Fixpoint filter_exc {A : Type} (callback : A -> exc bool) (items : list A)
  : exc (list A) :=
  match items with
  | [] => Ok []
  | item :: rest =>
      keep ← callback item;
      kept ← filter_exc callback rest;
      mret (if (keep : bool) then item :: kept else kept)
  end.

(** [items.map(callback)] *)
Fixpoint map_exc {A B : Type} (callback : A -> exc B) (items : list A)
  : exc (list B) :=
  match items with
  | [] => Ok []
  | item :: rest =>
      y ← callback item;
      ys ← map_exc callback rest;
      mret (y :: ys)
  end.

(** ** [src/types/chat.ts]: helpers on messages *)

Module ChatMessage.
Record t : Type := Build {
  uuid : string;
  parent_uuid : option string;
  timestamp : string;
  message_type : string;
  content : jsval;
  tool_use_id : option string;
  cwd : option string;
  version : option string
}.
End ChatMessage.

(** The callback of [getToolCalls]:
    [(block.block_type || block.type) === 'tool_use']. *)
Definition is_tool_use (block : jsval) : exc bool :=
  block_type ← Js.get block "block_type";
  tag ← (if truthy block_type then mret block_type else Js.get block "type");
  mret (Js.is_str tag "tool_use").

Definition getToolCalls (message : ChatMessage.t) : exc (list jsval) :=
  match ChatMessage.content message with
  | JStr _ => Ok []
  | JArr blocks => filter_exc is_tool_use blocks
  | _ => Ok []
  end.

Definition hasToolCalls (message : ChatMessage.t) : exc bool :=
  calls ← getToolCalls message;
  mret (Nat.ltb 0 (List.length calls)).

(** The line feed, ['\n'] in the source. *)
Definition LF : ascii := Ascii.ascii_of_nat 10.

Section ExtractMessageText.

(** The conversion to a string that [join] applies to an item belongs to
    the language runtime; on a string it is the identity. *)
Variable ToString : jsval -> string.

(** [items.join(sep)]: [undefined] and [null] items print as nothing. *)
Definition Array_join (sep : string) (items : list jsval) : string :=
  String.concat sep
    (List.map (fun item => match item with
                           | JUndefined | JNull => EmptyString
                           | _ => ToString item
                           end) items).

Definition extractMessageText (message : ChatMessage.t) : exc string :=
  rawText ←
    match ChatMessage.content message with
    | JStr s => Ok s
    | JArr blocks =>
        with_text ← filter_exc (fun block => text ← Js.get block "text";
                                             mret (truthy text)) blocks;
        texts ← map_exc (fun block => Js.get block "text") with_text;
        mret (Array_join (String LF EmptyString) texts)
    | _ => Ok EmptyString
    end;
  mret (processBackspaces rawText).

End ExtractMessageText.

(** ** More of [src/components/MessageRenderer.tsx] *)

(** A child the array branch of [MessageRenderer] builds:
    [<ContentBlockRenderer key={index} block={block} />]. *)
Record BlockChild : Type := { child_key : nat; child_block : jsval }.

(** What [MessageRenderer] returns: the text component with its content,
    the [div] of the block children, or the debug panel for an unexpected
    content.  The function only builds these elements; it reads no field
    of a block. *)
Inductive MessageElement : Type :=
| TextContent (content : string)
| BlockContent (children : list BlockChild)
| UnexpectedContent (content : jsval).

(** [blocks.map((block, index) => <ContentBlockRenderer .. />)], with
    [index] the position the first of [blocks] has in the array. *)
Fixpoint block_children (index : nat) (blocks : list jsval)
  : list BlockChild :=
  match blocks with
  | [] => []
  | block :: rest =>
      {| child_key := index; child_block := block |}
        :: block_children (S index) rest
  end.

Definition MessageRenderer (message : ChatMessage.t) : MessageElement :=
  match ChatMessage.content message with
  | JStr s => TextContent s
  | JArr blocks => BlockContent (block_children 0 blocks)
  | other => UnexpectedContent other
  end.

(** White space and line terminators, as [trim] removes them, among the
    code units below 256: tab, line feed, vertical tab, form feed,
    carriage return, space and no-break space. *)
Definition is_whitespace (c : ascii) : bool :=
  existsb (Nat.eqb (Ascii.nat_of_ascii c)) [9; 10; 11; 12; 13; 32; 160]%nat.

Fixpoint trimStart (s : string) : string :=
  match s with
  | EmptyString => EmptyString
  | String c rest => if is_whitespace c then trimStart rest else s
  end.

Fixpoint trimEnd (s : string) : string :=
  match s with
  | EmptyString => EmptyString
  | String c rest =>
      match trimEnd rest with
      | EmptyString => if is_whitespace c then EmptyString
                       else String c EmptyString
      | kept => String c kept
      end
  end.

Definition trim (s : string) : string := trimEnd (trimStart s).

(** [MessageText]: nothing ([null]) when [content.trim()] is empty,
    otherwise the markdown source handed to [ReactMarkdown]. *)
Definition MessageText_markdown (content : string) : option string :=
  if String.eqb (trim content) "" then None
  else Some (processBackspaces content).

(** The [code] component [MessageText] gives to [ReactMarkdown]. *)

Definition is_word_char (c : ascii) : bool :=
  let n := Ascii.nat_of_ascii c in
  (Nat.leb 48 n && Nat.leb n 57) || (Nat.leb 65 n && Nat.leb n 90) ||
  (Nat.leb 97 n && Nat.leb n 122) || Nat.eqb n 95.

(** The longest run of word characters at the start of [s]: [\w+],
    greedy. *)
Fixpoint take_word (s : string) : string :=
  match s with
  | EmptyString => EmptyString
  | String c rest =>
      if is_word_char c then String c (take_word rest) else EmptyString
  end.

Fixpoint strip_prefix (p s : string) : option string :=
  match p, s with
  | EmptyString, _ => Some s
  | String a p', String b s' =>
      if Ascii.eqb a b then strip_prefix p' s' else None
  | String _ _, EmptyString => None
  end.

(** [/language-(\w+)/.exec(className)]: the capture of the leftmost
    match, if any. *)
Fixpoint exec_language (className : string) : option string :=
  match className with
  | EmptyString => None
  | String _ rest =>
      match strip_prefix "language-" className with
      | Some after =>
          match take_word after with
          | EmptyString => exec_language rest
          | word => Some word
          end
      | None => exec_language rest
      end
  end.

(** [s.replace(/\n$/, "")]: one line feed at the very end is dropped. *)
Fixpoint strip_final_newline (s : string) : string :=
  match s with
  | EmptyString => EmptyString
  | String c EmptyString => if Ascii.eqb c LF then EmptyString else s
  | String c rest => String c (strip_final_newline rest)
  end.

Inductive CodeElement : Type :=
| InlineCode
| BlockCode (language : string) (code : string).

(** [className] is [undefined] ([None]) or a string; [className || ""]
    is the string itself or the empty string. *)
Definition code_component (className : option string) (children : string)
  : CodeElement :=
  let isInline :=
    negb (match className with
          | Some c => JsString.includes c "language-"
          | None => false
          end) in
  if isInline then InlineCode
  else
    BlockCode
      (match exec_language (match className with
                            | Some c => c
                            | None => ""
                            end) with
       | Some language => language
       | None => "text"
       end)
      (strip_final_newline children).

(** The "Result" region of [ToolUseBlock] (source lines 201 to 251):
    nothing when the block has neither content nor structured result. *)
Inductive ToolUseResult : Type :=
| TodoWriteResult (text : jsval) (todos : option jsval)
| StructuredResult (text : option jsval) (structured : jsval)
| PlainResult (content : jsval)
| NoResultContent.

Definition ToolUseBlock_result (block : jsval) : exc (option ToolUseResult) :=
  content ← Js.get block "content";
  tool_use_result ← Js.get block "tool_use_result";
  let hasResult := Js.or content tool_use_result in
  if truthy hasResult then
    if truthy tool_use_result then
      isTodo ← Js.opt_includes content MARKER_MODIFIED;
      if truthy isTodo then
        newTodos ← Js.get tool_use_result "newTodos";
        mret (Some (TodoWriteResult
                      (Js.or content (JStr ""))
                      (if truthy newTodos then Some newTodos else None)))
      else
        mret (Some (StructuredResult
                      (if truthy content then Some content else None)
                      tool_use_result))
    else if truthy content then mret (Some (PlainResult content))
    else mret (Some NoResultContent)
  else mret None.

(** What [ToolResultBlock] returns (source lines 295 to 386): the "Show
    tool result" button, or the panel with its title, whether it is
    open, and its body. *)
Inductive ToolResultBody : Type :=
| TodoBody (todos : jsval) (debug : option jsval)
| ContentBody (content : jsval)
| NoContent.

Inductive ToolResultView : Type :=
| ShowToolResultButton
| ResultPanel (title : string) (open : bool) (body : ToolResultBody).

Definition ToolResultBlock_view
    (JSON_parse : string -> exc jsval) (block : jsval)
    (isExpanded showDebugInfo : bool) : exc ToolResultView :=
  isTodo ← isTodoResult block;
  data ← todoData JSON_parse block;
  content ← Js.get block "content";
  if negb (truthy isTodo) && negb isExpanded then mret ShowToolResultButton
  else
    mret (ResultPanel
            (if truthy isTodo then "Todo List Updated" else "Tool Result")
            isExpanded
            (if truthy isTodo && truthy data then
               TodoBody data (if showDebugInfo && truthy content
                              then Some content else None)
             else if truthy content then ContentBody content
             else NoContent)).

(** ** [src/components/TodoList.tsx] *)







(** A block is an object. *)
Definition is_object (v : jsval) : Prop :=
  match v with
  | JObj _ => True
  | _ => False
  end.

(** Does [ContentBlockRenderer] hand the block to [ToolUseBlock]. *)
Definition renders_as_tool_use (block : jsval) : bool :=
  match ContentBlockRenderer block with
  | Ok (ToolUseBlock _) => true
  | _ => false
  end.

(** The non-empty text of a block whose [text] is a string. *)
Definition block_text (block : jsval) : option string :=
  match block with
  | JObj props =>
      match Js.lookup_prop "text" props with
      | JStr s => if String.eqb s "" then None else Some s
      | _ => None
      end
  | _ => None
  end.

(** The type [text?: string] of the block interface, on an object. *)
Definition text_is_string (block : jsval) : Prop :=
  match block with
  | JObj props =>
      match Js.lookup_prop "text" props with
      | JUndefined | JNull | JStr _ => True
      | _ => False
      end
  | _ => False
  end.

Definition message_with (content : jsval) : ChatMessage.t :=
  {| ChatMessage.uuid := "u-1"; ChatMessage.parent_uuid := None;
     ChatMessage.timestamp := "2025-01-01T00:00:00.000Z";
     ChatMessage.message_type := "assistant";
     ChatMessage.content := content;
     ChatMessage.tool_use_id := None; ChatMessage.cwd := None;
     ChatMessage.version := None |}.

(** Every code unit of the string is white space. *)
Definition all_whitespace (s : string) : Prop :=
  Forall (fun c => is_whitespace c = true) (list_ascii_of_string s).

(** Every code unit of the string is a word character. *)
Definition word (s : string) : Prop :=
  Forall (fun c => is_word_char c = true) (list_ascii_of_string s).


(** * Properties *)

Example truthy_examples :
  truthy (JArr []) = true /\ truthy (JStr "") = false /\
  truthy (JNum 0%float) = false /\ truthy (JNum 2%float) = true.
Proof. repeat split; reflexivity. Qed.

Example match_braces_examples :
  Js.match_braces "x {a} y {b} z" = Some "{a} y {b}" /\
  Js.match_braces "} then {" = None /\
  Js.match_braces "{ {} " = Some "{ {}" /\
  JsString.includes "Todo List" "todo list" = false /\
  JsString.includes "the todo list is empty" "todo list" = true.
Proof. repeat split; reflexivity. Qed.

(** ** Strings *)

Section StringFacts.

Lemma length_push (s : string) (c : ascii) :
  String.length (s ++ String c EmptyString) = S (String.length s).
Proof. induction s as [|a s IH]; simpl; [reflexivity | now rewrite IH]. Qed.

Lemma substring_0_push (s : string) (c : ascii) :
  String.substring 0 (String.length s) (s ++ String c EmptyString) = s.
Proof. induction s as [|a s IH]; simpl; [reflexivity | now rewrite IH]. Qed.

Lemma drop_last_push (s : string) (c : ascii) :
  drop_last (s ++ String c EmptyString) = s.
Proof.
  induction s as [|a s IH]; simpl; [reflexivity|].
  rewrite IH. destruct s; reflexivity.
Qed.

(** Every non-empty string ends in some code unit. *)
Lemma string_snoc_inv (s : string) :
  s = EmptyString \/ exists t c, s = t ++ String c EmptyString.
Proof.
  induction s as [|a s IH]; [now left | right].
  destruct IH as [-> | (t & c & ->)].
  - exists EmptyString, a. reflexivity.
  - exists (String a t), c. reflexivity.
Qed.

(** The source's [slice(0, -1)] and the buffer operation of the
    specification agree. *)
Lemma slice_0_m1_drop_last (s : string) :
  JsString.slice_0_m1 s = drop_last s.
Proof.
  unfold JsString.slice_0_m1.
  destruct (string_snoc_inv s) as [-> | (t & c & ->)]; [reflexivity|].
  rewrite length_push, drop_last_push.
  replace (S (String.length t) - 1) with (String.length t) by lia.
  apply substring_0_push.
Qed.

Lemma get_append_here (pre : string) (c : ascii) (suf : string) :
  String.get (String.length pre) (pre ++ String c suf) = Some c.
Proof. induction pre as [|a pre IH]; simpl; [reflexivity | exact IH]. Qed.

Lemma append_assoc_cons (pre : string) (c : ascii) (suf : string) :
  (pre ++ String c EmptyString) ++ suf = pre ++ String c suf.
Proof. induction pre as [|a pre IH]; simpl; [reflexivity | f_equal; exact IH]. Qed.

Lemma append_empty_r (s : string) : s ++ EmptyString = s.
Proof. induction s as [|a s IH]; simpl; [reflexivity | f_equal; exact IH]. Qed.

Lemma includes_char (s : string) (c : ascii) :
  JsString.includes s (String c EmptyString) = true <->
  In c (list_ascii_of_string s).
Proof.
  induction s as [|a s IH]; simpl.
  - split; [discriminate | tauto].
  - destruct (ascii_dec c a) as [->|Hne].
    + split; [now left | intros _].
      destruct s; reflexivity.
    + simpl. rewrite IH.
      split; [now right | intros [H|H]; [congruence | exact H]].
Qed.

End StringFacts.

(** ** Text repair *)

Section Repair.

(** The loop of the source, started at position [length pre] of
    [pre ++ suf] with [length suf] iterations left, folds the buffer step
    of the specification over [suf]. *)
Lemma processBackspaces_loop_fold (suf pre result : string) :
  processBackspaces_loop (pre ++ suf) (String.length suf)
                         (String.length pre) result
  = fold_left repair_step (list_ascii_of_string suf) result.
Proof.
  revert pre result.
  induction suf as [|c suf IH]; intros pre result; [reflexivity|].
  cbn [String.length processBackspaces_loop list_ascii_of_string fold_left].
  rewrite get_append_here.
  specialize (IH (pre ++ String c EmptyString)).
  rewrite append_assoc_cons, length_push in IH.
  unfold repair_step at 2.
  destruct (Ascii.eqb c BS).
  - destruct (Nat.ltb_spec 0 (String.length result)) as [Hlt|Hge].
    + rewrite IH. now rewrite slice_0_m1_drop_last.
    + rewrite IH. destruct result; [reflexivity | simpl in Hge; lia].
  - apply IH.
Qed.

(** On input without a backspace the pass only appends. *)
Lemma fold_repair_bs_free (s buf : string) :
  bs_free s ->
  fold_left repair_step (list_ascii_of_string s) buf = buf ++ s.
Proof.
  unfold bs_free. revert buf.
  induction s as [|c s IH]; intros buf Hfree; simpl.
  - now rewrite append_empty_r.
  - simpl in Hfree. unfold repair_step at 2.
    destruct (Ascii.eqb_spec c BS) as [->|Hne]; [tauto|].
    rewrite IH by tauto. apply append_assoc_cons.
Qed.

Lemma bs_free_drop_last (buf : string) : bs_free buf -> bs_free (drop_last buf).
Proof.
  unfold bs_free.
  induction buf as [|a buf IH]; simpl; [tauto|].
  destruct buf as [|b buf]; [simpl; tauto|].
  intros Hfree [Heq | Hin]; [tauto|].
  apply IH; [|exact Hin]. intros H. apply Hfree. now right.
Qed.

Lemma bs_free_push (buf : string) (c : ascii) :
  c <> BS -> bs_free buf -> bs_free (buf ++ String c EmptyString).
Proof.
  unfold bs_free. intros Hc.
  induction buf as [|a buf IH]; simpl.
  - intros _ [H|[]]. congruence.
  - intros Hfree [H|H]; [tauto|]. apply IH; [|exact H]. tauto.
Qed.

(** The buffer never holds a backspace. *)
Lemma bs_free_fold_repair (l : list ascii) (buf : string) :
  bs_free buf -> bs_free (fold_left repair_step l buf).
Proof.
  revert buf. induction l as [|c l IH]; intros buf Hfree; [exact Hfree|].
  simpl. apply IH. unfold repair_step.
  destruct (Ascii.eqb_spec c BS) as [->|Hne].
  - now apply bs_free_drop_last.
  - now apply bs_free_push.
Qed.

Lemma includes_BS_false (s : string) :
  JsString.includes s (String BS EmptyString) = false <-> bs_free s.
Proof.
  unfold bs_free. rewrite <- includes_char.
  destruct (JsString.includes s (String BS EmptyString)); split; congruence.
Qed.

Lemma processBackspaces_bs_free (s : string) : bs_free (processBackspaces s).
Proof.
  unfold processBackspaces.
  destruct (JsString.includes s (String BS EmptyString)) eqn:Hinc; simpl.
  - pose proof (processBackspaces_loop_fold s EmptyString EmptyString) as H.
    simpl in H. rewrite H.
    apply bs_free_fold_repair. unfold bs_free. simpl. tauto.
  - now apply includes_BS_false.
Qed.

Lemma processBackspaces_fixed (s : string) :
  bs_free s -> processBackspaces s = s.
Proof.
  intros Hfree. apply includes_BS_false in Hfree.
  unfold processBackspaces. now rewrite Hfree.
Qed.

End Repair.

(** C3.  For every input, [processBackspaces] is the single left-to-right
    pass over the input that keeps an output buffer, removes the last
    buffered character on a backspace (code point 8) when there is one,
    leaves an empty buffer alone, and appends every other character
    unchanged; so ["ab\bc"] becomes ["ac"] and ["\babc"] becomes ["abc"]. *)
Theorem processBackspaces_is_single_pass :
  (forall raw : string, processBackspaces raw = repair_spec raw) /\
  (forall (buf : string) (c : ascii),
      repair_step (buf ++ String c EmptyString) BS = buf) /\
  repair_step EmptyString BS = EmptyString /\
  (forall (buf : string) (c : ascii),
      c <> BS -> repair_step buf c = buf ++ String c EmptyString) /\
  Ascii.nat_of_ascii BS = 8 /\
  processBackspaces ("ab" ++ String BS "c") = "ac" /\
  processBackspaces (String BS "abc") = "abc".
Proof.
  split; [|split; [|split; [|split; [|repeat split]]]].
  - intros raw. unfold processBackspaces, repair_spec.
    destruct (JsString.includes raw (String BS EmptyString)) eqn:Hinc; simpl.
    + exact (processBackspaces_loop_fold raw EmptyString EmptyString).
    + apply includes_BS_false in Hinc.
      now rewrite fold_repair_bs_free.
  - intros buf c. unfold repair_step. simpl. apply drop_last_push.
  - reflexivity.
  - intros buf c Hc. unfold repair_step.
    destruct (Ascii.eqb_spec c BS); [contradiction | reflexivity].
Qed.

(** C8.  [processBackspaces] is the identity on input without backspaces
    and is idempotent. *)
Theorem processBackspaces_identity_idempotent :
  (forall s : string, bs_free s -> processBackspaces s = s) /\
  (forall s : string,
      processBackspaces (processBackspaces s) = processBackspaces s).
Proof.
  split.
  - exact processBackspaces_fixed.
  - intros s. apply processBackspaces_fixed, processBackspaces_bs_free.
Qed.

Lemma processBackspaces_identity_idempotent_witness :
  bs_free "plain text" /\ processBackspaces "plain text" = "plain text".
Proof.
  assert (H : bs_free "plain text").
  { unfold bs_free. simpl. intros H.
    repeat (destruct H as [H|H]; [discriminate H|]). exact H. }
  split; [exact H|].
  exact (proj1 processBackspaces_identity_idempotent "plain text" H).
Defined.

Lemma processBackspaces_is_single_pass_witness :
  processBackspaces ("typo" ++ String BS (String BS "es"))
  = repair_spec ("typo" ++ String BS (String BS "es")) /\
  repair_step "ty" "p"%char = "typ".
Proof.
  split.
  - exact (proj1 processBackspaces_is_single_pass _).
  - refine (proj1 (proj2 (proj2 (proj2 processBackspaces_is_single_pass)))
                  "ty" "p"%char _).
    discriminate.
Defined.

(** ** Content classifier *)

Ltac exc_simpl :=
  unfold mbind, exc_bind, mret, exc_ret in *; simpl in *.

Section Classifier.

Lemma absent_or_empty_falsy (v : jsval) : absent_or_empty v -> truthy v = false.
Proof. intros [-> | [-> | ->]]; reflexivity. Qed.

Lemma blockType_object (props : list (string * jsval)) :
  blockType (JObj props) =
  Ok (if truthy (Js.lookup_prop "block_type" props)
      then Js.lookup_prop "block_type" props
      else if truthy (Js.lookup_prop "type" props)
           then Js.lookup_prop "type" props
           else JStr "unknown").
Proof.
  unfold blockType, Js.or. exc_simpl.
  destruct (truthy (Js.lookup_prop "block_type" props)); reflexivity.
Qed.

Lemma is_str_eq (v : jsval) (lit : string) :
  Js.is_str v lit = true <-> v = JStr lit.
Proof.
  destruct v; simpl; try (split; [discriminate | intros; discriminate]).
  rewrite String.eqb_eq. split; [now intros -> | now intros [= ->]].
Qed.

Lemma ContentBlockRenderer_unknown (props : list (string * jsval)) (tag : jsval) :
  blockType (JObj props) = Ok tag ->
  known_tag tag = false ->
  ContentBlockRenderer (JObj props)
  = Ok (UnknownBlock tag (map fst props) (JObj props)).
Proof.
  intros Htag Hknown. unfold ContentBlockRenderer. rewrite Htag.
  unfold known_tag in Hknown.
  repeat (apply orb_false_iff in Hknown as [Hknown ?]).
  exc_simpl. now repeat match goal with H : Js.is_str _ _ = false |- _ =>
                                  rewrite H; clear H end.
Qed.

(** A block that is not an object at all makes the first property read
    throw; the array elements the backend sends are objects. *)
Remark ContentBlockRenderer_null : ContentBlockRenderer JNull = Throw TypeError.
Proof. reflexivity. Qed.

End Classifier.

(** C1.  [ContentBlockRenderer] resolves the tag of a block from
    [block_type], from [type] when [block_type] is absent or empty, and as
    ["unknown"] when both are; the tags ["text"], ["tool_use"],
    ["tool_result"] and ["thinking"] yield the text, tool-invocation,
    tool-output and reasoning components (the text body being the [text]
    field or the empty string, the reasoning body the [thinking] field or
    nothing), never the debug panel; every other tag yields the debug
    panel, which carries the block with all its fields. *)
Theorem ContentBlockRenderer_dispatch :
  forall (props : list (string * jsval)) (tag : jsval),
    let block := JObj props in
    let field := fun key => Js.lookup_prop key props in
    blockType block = Ok tag ->
    (truthy (field "block_type") = true -> tag = field "block_type") /\
    (absent_or_empty (field "block_type") ->
       truthy (field "type") = true -> tag = field "type") /\
    (absent_or_empty (field "block_type") ->
       absent_or_empty (field "type") -> tag = JStr "unknown") /\
    (tag = JStr "text" ->
       ContentBlockRenderer block
       = Ok (MessageText (if truthy (field "text") then field "text"
                          else JStr ""))) /\
    (tag = JStr "tool_use" ->
       ContentBlockRenderer block = Ok (ToolUseBlock block)) /\
    (tag = JStr "tool_result" ->
       ContentBlockRenderer block = Ok (ToolResultBlock block)) /\
    (tag = JStr "thinking" ->
       ContentBlockRenderer block = Ok (ThinkingBlock block) /\
       ThinkingBlock_content block
       = Ok (if truthy (field "thinking") then Some (field "thinking")
             else None)) /\
    (known_tag tag = true ->
       forall t keys b,
         ContentBlockRenderer block <> Ok (UnknownBlock t keys b)) /\
    (known_tag tag = false ->
       ContentBlockRenderer block
       = Ok (UnknownBlock tag (map fst props) block)).
Proof.
  intros props tag block field Htag. subst block field. cbv beta.
  pose proof Htag as Hres. rewrite blockType_object in Hres.
  injection Hres as Hres.
  repeat apply conj.
  - intros Hbt. now rewrite Hbt in Hres.
  - intros Hbt%absent_or_empty_falsy Hty. now rewrite Hbt, Hty in Hres.
  - intros Hbt%absent_or_empty_falsy Hty%absent_or_empty_falsy.
    now rewrite Hbt, Hty in Hres.
  - intros ->. unfold ContentBlockRenderer. now rewrite Htag.
  - intros ->. unfold ContentBlockRenderer. now rewrite Htag.
  - intros ->. unfold ContentBlockRenderer. now rewrite Htag.
  - intros ->. split; [unfold ContentBlockRenderer; now rewrite Htag|].
    reflexivity.
  - intros Hknown t keys b. unfold ContentBlockRenderer. rewrite Htag.
    unfold known_tag in Hknown. exc_simpl.
    destruct (Js.is_str tag "text"); [discriminate|].
    destruct (Js.is_str tag "tool_use"); [discriminate|].
    destruct (Js.is_str tag "tool_result"); [discriminate|].
    destruct (Js.is_str tag "thinking"); [discriminate|].
    discriminate Hknown.
  - now apply ContentBlockRenderer_unknown.
Qed.

Lemma ContentBlockRenderer_dispatch_witness :
  blockType (JObj [("type", JStr "thinking"); ("thinking", JStr "hm")])
  = Ok (JStr "thinking") /\
  ContentBlockRenderer (JObj [("type", JStr "thinking"); ("thinking", JStr "hm")])
  = Ok (ThinkingBlock (JObj [("type", JStr "thinking"); ("thinking", JStr "hm")])) /\
  blockType (JObj [("block_type", JStr ""); ("type", JStr "image")])
  = Ok (JStr "image") /\
  ContentBlockRenderer (JObj [("block_type", JStr ""); ("type", JStr "image")])
  = Ok (UnknownBlock (JStr "image") ["block_type"; "type"]
          (JObj [("block_type", JStr ""); ("type", JStr "image")])).
Proof.
  split; [reflexivity|]. split; [|split; [reflexivity|]].
  - destruct (ContentBlockRenderer_dispatch
                [("type", JStr "thinking"); ("thinking", JStr "hm")]
                (JStr "thinking") eq_refl)
      as (_ & _ & _ & _ & _ & _ & Hthinking & _).
    exact (proj1 (Hthinking eq_refl)).
  - destruct (ContentBlockRenderer_dispatch
                [("block_type", JStr ""); ("type", JStr "image")]
                (JStr "image") eq_refl)
      as (_ & _ & _ & _ & _ & _ & _ & _ & Hother).
    exact (Hother eq_refl).
Defined.

(** C9.  [ContentBlockRenderer] returns an element for every block object,
    whatever its fields, the object with no field at all included; the
    [default] case, reached for every tag without a [case], evaluates
    [Object.keys] and returns the debug panel without throwing. *)
Theorem ContentBlockRenderer_total :
  (forall props : list (string * jsval),
      exists e : Element, ContentBlockRenderer (JObj props) = Ok e) /\
  ContentBlockRenderer (JObj [])
  = Ok (UnknownBlock (JStr "unknown") [] (JObj [])) /\
  (forall (props : list (string * jsval)) (tag : jsval),
      blockType (JObj props) = Ok tag ->
      known_tag tag = false ->
      exists keys,
        Js.Object_keys (JObj props) = Ok keys /\
        ContentBlockRenderer (JObj props)
        = Ok (UnknownBlock tag keys (JObj props))).
Proof.
  repeat apply conj.
  - intros props.
    destruct (blockType (JObj props)) as [tag|err] eqn:Htag;
      [|rewrite blockType_object in Htag; discriminate].
    destruct (known_tag tag) eqn:Hknown.
    + unfold ContentBlockRenderer. rewrite Htag. unfold known_tag in Hknown.
      exc_simpl.
      destruct (Js.is_str tag "text"); [eauto|].
      destruct (Js.is_str tag "tool_use"); [eauto|].
      destruct (Js.is_str tag "tool_result"); [eauto|].
      destruct (Js.is_str tag "thinking"); [eauto|].
      discriminate Hknown.
    + rewrite (ContentBlockRenderer_unknown props tag Htag Hknown). eauto.
  - reflexivity.
  - intros props tag Htag Hknown. exists (map fst props).
    split; [reflexivity|]. now apply ContentBlockRenderer_unknown.
Qed.

Lemma ContentBlockRenderer_total_witness :
  exists keys,
    Js.Object_keys (JObj [("type", JNum 3%float); ("data", JNull)]) = Ok keys /\
    ContentBlockRenderer (JObj [("type", JNum 3%float); ("data", JNull)])
    = Ok (UnknownBlock (JNum 3%float) keys
            (JObj [("type", JNum 3%float); ("data", JNull)])).
Proof.
  exact (proj2 (proj2 ContentBlockRenderer_total)
               [("type", JNum 3%float); ("data", JNull)] (JNum 3%float)
               eq_refl eq_refl).
Defined.

(** ** Task list extractor *)

Section Extractor.

Lemma prefix_app (sub s : string) :
  String.prefix sub s = true <-> exists post, s = sub ++ post.
Proof.
  revert s. induction sub as [|a sub IH]; intros s.
  - split; [intros _; now exists s | intros _; destruct s; reflexivity].
  - destruct s as [|b s]; simpl.
    + split; [discriminate | intros (post & H); discriminate H].
    + destruct (ascii_dec a b) as [->|Hne].
      * rewrite IH. split; intros (post & H); exists post.
        -- now rewrite H.
        -- now injection H.
      * split; [discriminate | intros (post & H)].
        injection H as H _. congruence.
Qed.

#[local] Arguments String.prefix : simpl never.

(** [includes] is the substring relation. *)
Lemma includes_substring (s sub : string) :
  JsString.includes s sub = true <-> exists pre post, s = pre ++ sub ++ post.
Proof.
  induction s as [|a s IH]; simpl.
  - rewrite orb_false_r, prefix_app. split.
    + intros (post & H). now exists EmptyString, post.
    + intros (pre & post & H). destruct pre; [now exists post|discriminate H].
  - rewrite orb_true_iff, prefix_app, IH. split.
    + intros [(post & H) | (pre & post & H)].
      * now exists EmptyString, post.
      * exists (String a pre), post. simpl. now rewrite H.
    + intros (pre & post & H). destruct pre as [|b pre].
      * left. now exists post.
      * right. simpl in H. injection H as _ H. now exists pre, post.
Qed.

Lemma through_last_none (c : ascii) (s : string) :
  Js.through_last c s = None -> ~ occurs c s.
Proof.
  unfold occurs. induction s as [|a s IH]; simpl; [tauto|].
  destruct (Js.through_last c s); [discriminate|].
  destruct (Ascii.eqb_spec a c) as [->|Hne]; [discriminate|].
  intros _ [H|H]; [congruence | now apply IH].
Qed.

Lemma through_last_some (c : ascii) (s t : string) :
  Js.through_last c s = Some t ->
  exists body post,
    t = body ++ String c EmptyString /\ s = t ++ post /\ ~ occurs c post.
Proof.
  revert t. induction s as [|a s IH]; intros t; simpl; [discriminate|].
  destruct (Js.through_last c s) as [t'|] eqn:Hrest.
  - intros [= <-]. destruct (IH t' eq_refl) as (body & post & -> & -> & Hpost).
    exists (String a body), post. repeat split. exact Hpost.
  - destruct (Ascii.eqb_spec a c) as [->|Hne]; [|discriminate].
    intros [= <-]. exists EmptyString, s. repeat split.
    now apply through_last_none.
Qed.

Lemma occurs_app (c : ascii) (s t : string) :
  occurs c (s ++ t) <-> occurs c s \/ occurs c t.
Proof.
  unfold occurs. induction s as [|a s IH]; simpl; [tauto|].
  rewrite IH. tauto.
Qed.

(** What the regular expression matches: the text from the first opening
    brace to the last closing brace. *)
Lemma match_braces_some (s blob : string) :
  Js.match_braces s = Some blob ->
  exists pre body post,
    s = pre ++ blob ++ post /\
    blob = String "{"%char (body ++ String "}"%char EmptyString) /\
    ~ occurs "{"%char pre /\ ~ occurs "}"%char post.
Proof.
  revert blob. induction s as [|a s IH]; intros blob; simpl; [discriminate|].
  destruct (Ascii.eqb_spec a "{"%char) as [->|Hne].
  - destruct (Js.through_last "}"%char s) as [t|] eqn:Hlast.
    + intros [= <-].
      destruct (through_last_some _ _ _ Hlast) as (body & post & -> & -> & Hpost).
      exists EmptyString, body, post. repeat split; [|exact Hpost].
      unfold occurs. simpl. tauto.
    + intros Hm. destruct (IH blob Hm) as (pre & body & post & -> & -> & _).
      exfalso. apply (through_last_none _ _ Hlast).
      rewrite occurs_app. right. rewrite occurs_app. left.
      unfold occurs. simpl. right.
      fold (occurs "}"%char (body ++ String "}"%char EmptyString)).
      rewrite occurs_app. right. unfold occurs. simpl. now left.
  - intros Hm. destruct (IH blob Hm) as (pre & body & post & -> & -> & Hpre & Hpost).
    exists (String a pre), body, post. repeat split; [|exact Hpost].
    unfold occurs in *. simpl. intros [H|H]; [congruence | tauto].
Qed.

(** No match: no opening brace has a closing brace after it. *)
Lemma match_braces_none (s : string) :
  Js.match_braces s = None ->
  forall pre rest, s = pre ++ String "{"%char rest -> ~ occurs "}"%char rest.
Proof.
  induction s as [|a s IH]; simpl; intros Hm pre rest Hs.
  - destruct pre; discriminate Hs.
  - destruct pre as [|b pre]; simpl in Hs; injection Hs as -> ->.
    + simpl in Hm. destruct (Js.through_last "}"%char rest) eqn:Hlast;
        [discriminate | now apply through_last_none].
    + apply (IH) with (pre := pre); [|reflexivity].
      destruct (Ascii.eqb b "{"%char); [|exact Hm].
      destruct (Js.through_last "}"%char (pre ++ String "{"%char rest));
        [discriminate | exact Hm].
Qed.

Variable JSON_parse : string -> exc jsval.

Lemma isTodoResult_text (props : list (string * jsval)) (s : string) :
  Js.lookup_prop "content" props = JStr s ->
  isTodoResult (JObj props) = Ok (JBool (has_marker s)).
Proof.
  intros Hc. unfold isTodoResult, has_marker. exc_simpl. rewrite Hc. simpl.
  destruct (JsString.includes s MARKER_MODIFIED); reflexivity.
Qed.

Lemma structured_read (payload : jsval) :
  (if truthy payload then Js.get payload "newTodos" else mret payload)
  = Ok (structured_newTodos payload).
Proof.
  unfold structured_newTodos.
  destruct (truthy payload) eqn:Htruthy; [|reflexivity].
  destruct payload; try reflexivity; discriminate Htruthy.
Qed.

(** The [try]/[catch] around the scrape always completes, with the value
    [scraped_tasks] describes. *)
Lemma try_scrape (s : string) :
  try_catch (todoData_from_content JSON_parse (JStr s)) (fun _ => mret JNull)
  = Ok (scraped_tasks JSON_parse s).
Proof.
  unfold todoData_from_content, scraped_tasks. exc_simpl.
  destruct (Js.match_braces s) as [blob|]; [|reflexivity].
  destruct (JSON_parse blob) as [parsed|err]; [|reflexivity].
  destruct parsed as [| | | | | |fields]; try reflexivity. simpl.
  destruct (Js.lookup_prop "newTodos" fields) as [| |[]| | | |]; try reflexivity.
  - simpl. now rewrite andb_false_r.
  - simpl. now rewrite andb_false_r.
Qed.

(** [todoData] on a block whose [content] is a string, case by case. *)
Lemma todoData_text (props : list (string * jsval)) (s : string) :
  Js.lookup_prop "content" props = JStr s ->
  todoData JSON_parse (JObj props) =
  Ok (if has_marker s then
        let structured :=
          structured_newTodos (Js.lookup_prop "tool_use_result" props) in
        if truthy structured then structured
        else scraped_tasks JSON_parse s
      else JNull).
Proof.
  intros Hc. unfold todoData. rewrite (isTodoResult_text props s Hc).
  exc_simpl. destruct (has_marker s) eqn:Hm; [|reflexivity].
  pose proof (structured_read (Js.lookup_prop "tool_use_result" props)) as Hr.
  exc_simpl. rewrite Hr.
  destruct (truthy (structured_newTodos _)); [reflexivity|].
  rewrite Hc. simpl.
  destruct (String.eqb_spec s "") as [->|Hne]; [discriminate Hm|]. simpl.
  apply try_scrape.
Qed.

Lemma todoData_no_content (props : list (string * jsval)) :
  Js.lookup_prop "content" props = JUndefined \/
  Js.lookup_prop "content" props = JNull ->
  todoData JSON_parse (JObj props) = Ok JNull.
Proof.
  intros Hc. unfold todoData, isTodoResult. exc_simpl.
  destruct Hc as [-> | ->]; reflexivity.
Qed.

End Extractor.

Section ScrapeFinds.

Lemma through_last_free (c : ascii) (s : string) :
  ~ occurs c s -> Js.through_last c s = None.
Proof.
  unfold occurs. induction s as [|a s IH]; simpl; [reflexivity|].
  intros Hfree. rewrite IH by tauto.
  destruct (Ascii.eqb_spec a c) as [->|_]; [tauto | reflexivity].
Qed.

(** The greedy part stops at the last closing brace. *)
Lemma through_last_exact (c : ascii) (body post : string) :
  ~ occurs c post ->
  Js.through_last c (body ++ String c post)
  = Some (body ++ String c EmptyString).
Proof.
  intros Hpost. induction body as [|a body IH]; cbn [String.append Js.through_last].
  - rewrite (through_last_free c post Hpost). now rewrite Ascii.eqb_refl.
  - now rewrite IH.
Qed.

(** The match starts at the first opening brace and ends at the last
    closing brace after it. *)
Lemma match_braces_complete (pre body post : string) :
  ~ occurs "{"%char pre -> ~ occurs "}"%char post ->
  Js.match_braces (pre ++ String "{"%char (body ++ String "}"%char post))
  = Some (String "{"%char (body ++ String "}"%char EmptyString)).
Proof.
  intros Hpre Hpost. unfold occurs in Hpre.
  induction pre as [|a pre IH]; cbn [String.append Js.match_braces].
  - rewrite Ascii.eqb_refl. now rewrite (through_last_exact _ body post Hpost).
  - simpl in Hpre. destruct (Ascii.eqb_spec a "{"%char) as [->|_]; [tauto|].
    apply IH. tauto.
Qed.

End ScrapeFinds.

(** C5.  When the raw text of a tool output holds neither marker
    ("Todos have been modified successfully", "todo list"; substrings,
    matched with case), [todoData] is absent whatever the structured
    payload is. *)
Theorem todoData_absent_without_marker :
  (forall (parse : string -> exc jsval) (props : list (string * jsval))
          (s : string),
      Js.lookup_prop "content" props = JStr s ->
      JsString.includes s "Todos have been modified successfully" = false ->
      JsString.includes s "todo list" = false ->
      todoData parse (JObj props) = Ok JNull) /\
  (forall (parse : string -> exc jsval) (s : string) (payload : jsval),
      JsString.includes s "Todos have been modified successfully" = false ->
      JsString.includes s "todo list" = false ->
      todoData parse (JObj [("content", JStr s); ("tool_use_result", payload)])
      = Ok JNull).
Proof.
  assert (Hgate : forall parse props s,
             Js.lookup_prop "content" props = JStr s ->
             JsString.includes s MARKER_MODIFIED = false ->
             JsString.includes s MARKER_TODO_LIST = false ->
             todoData parse (JObj props) = Ok JNull).
  { intros parse props s Hc H1 H2. rewrite (todoData_text parse props s Hc).
    unfold has_marker. now rewrite H1, H2. }
  split.
  - exact Hgate.
  - intros parse s payload H1 H2. now apply (Hgate parse _ s).
Qed.

Lemma todoData_absent_without_marker_witness :
  todoData sample_parse
    (JObj [("content", JStr "Todo List updated");
           ("tool_use_result", JObj [("newTodos", JArr [JStr "task"])])])
  = Ok JNull.
Proof.
  exact (proj2 todoData_absent_without_marker sample_parse
               "Todo List updated" (JObj [("newTodos", JArr [JStr "task"])])
               eq_refl eq_refl).
Defined.

(** C2.  When the raw text holds a marker and the structured payload is
    present with a [newTodos] field that is a sequence, [todoData] is that
    sequence, unchanged; the text is not parsed: the result is the same
    for every behaviour of [JSON.parse], whatever JSON the text embeds. *)
Theorem todoData_structured_first :
  forall (parse : string -> exc jsval) (props : list (string * jsval))
         (s : string) (payload : list (string * jsval)) (tasks : list jsval),
    Js.lookup_prop "content" props = JStr s ->
    has_marker s = true ->
    Js.lookup_prop "tool_use_result" props = JObj payload ->
    Js.lookup_prop "newTodos" payload = JArr tasks ->
    todoData parse (JObj props) = Ok (JArr tasks) /\
    (forall parse' : string -> exc jsval,
        todoData parse' (JObj props) = todoData parse (JObj props)).
Proof.
  intros parse props s payload tasks Hc Hm Hp Ht.
  assert (H : forall q, todoData q (JObj props) = Ok (JArr tasks)).
  { intros q. rewrite (todoData_text q props s Hc), Hm, Hp.
    unfold structured_newTodos. simpl. now rewrite Ht. }
  split; [apply H | intros q; now rewrite !H].
Qed.

Lemma todoData_structured_first_witness :
  todoData sample_parse
    (JObj [("content", JStr sample_rawText);
           ("tool_use_result", JObj [("newTodos", JArr [JStr "a"; JStr "b"])])])
  = Ok (JArr [JStr "a"; JStr "b"]).
Proof.
  exact (proj1 (todoData_structured_first sample_parse
                  [("content", JStr sample_rawText);
                   ("tool_use_result",
                    JObj [("newTodos", JArr [JStr "a"; JStr "b"])])]
                  sample_rawText [("newTodos", JArr [JStr "a"; JStr "b"])]
                  [JStr "a"; JStr "b"] eq_refl eq_refl eq_refl eq_refl)).
Defined.

(** C6.  With a marker in the raw text and no task list to take from the
    structured payload, [todoData] is the result of the scraped path: the
    text from the first opening brace to the last closing brace is handed
    to [JSON.parse], and the [newTodos] field of the parsed value is
    returned exactly when the parse succeeds and the field is a sequence.
    A failing parse is swallowed; when both strategies fail the result is
    absent, and no exception reaches the caller.  The text that is parsed
    is found whenever an opening brace has a closing brace after it, and
    is then exactly the text from the first opening brace to the last
    closing brace. *)
Theorem todoData_scraped_path :
  (forall (parse : string -> exc jsval) (props : list (string * jsval))
          (s : string),
      Js.lookup_prop "content" props = JStr s ->
      has_marker s = true ->
      truthy (structured_newTodos (Js.lookup_prop "tool_use_result" props))
      = false ->
      todoData parse (JObj props) = Ok (scraped_tasks parse s) /\
      (forall tasks : list jsval,
          todoData parse (JObj props) = Ok (JArr tasks) <->
          exists blob fields,
            Js.match_braces s = Some blob /\
            parse blob = Ok (JObj fields) /\
            Js.lookup_prop "newTodos" fields = JArr tasks) /\
      (forall blob err,
          Js.match_braces s = Some blob -> parse blob = Throw err ->
          todoData parse (JObj props) = Ok JNull) /\
      (Js.match_braces s = None -> todoData parse (JObj props) = Ok JNull)) /\
  (forall s blob : string,
      Js.match_braces s = Some blob ->
      exists pre body post,
        s = pre ++ blob ++ post /\
        blob = String "{"%char (body ++ String "}"%char EmptyString) /\
        ~ occurs "{"%char pre /\ ~ occurs "}"%char post) /\
  (forall (parse : string -> exc jsval) (props : list (string * jsval)),
      content_is_text (Js.lookup_prop "content" props) ->
      exists v : jsval, todoData parse (JObj props) = Ok v) /\
  (forall parse : string -> exc jsval,
      todoData parse
        (JObj [("content",
                JStr "Todos have been modified successfully but no json here")])
      = Ok JNull) /\
  (forall pre body post : string,
      ~ occurs "{"%char pre -> ~ occurs "}"%char post ->
      Js.match_braces (pre ++ String "{"%char (body ++ String "}"%char post))
      = Some (String "{"%char (body ++ String "}"%char EmptyString))) /\
  (forall s : string,
      Js.match_braces s = None <->
      (forall pre rest : string,
          s = pre ++ String "{"%char rest -> ~ occurs "}"%char rest)) /\
  (forall (parse : string -> exc jsval) (props : list (string * jsval))
          (pre body post : string) (parsed : exc jsval),
      Js.lookup_prop "content" props
      = JStr (pre ++ String "{"%char (body ++ String "}"%char post)) ->
      has_marker (pre ++ String "{"%char (body ++ String "}"%char post))
      = true ->
      truthy (structured_newTodos (Js.lookup_prop "tool_use_result" props))
      = false ->
      ~ occurs "{"%char pre -> ~ occurs "}"%char post ->
      parse (String "{"%char (body ++ String "}"%char EmptyString)) = parsed ->
      todoData parse (JObj props)
      = Ok match parsed with
           | Ok (JObj fields) =>
               match Js.lookup_prop "newTodos" fields with
               | JArr tasks => JArr tasks
               | _ => JNull
               end
           | _ => JNull
           end).
Proof.
  repeat apply conj.
  - intros parse props s Hc Hm Hs.
    assert (Heq : todoData parse (JObj props) = Ok (scraped_tasks parse s)).
    { rewrite (todoData_text parse props s Hc), Hm. simpl. now rewrite Hs. }
    repeat apply conj.
    + exact Heq.
    + intros tasks. rewrite Heq. unfold scraped_tasks. split.
      * destruct (Js.match_braces s) as [blob|]; [|discriminate].
        destruct (parse blob) as [[| | | | | |fields]|err] eqn:Hp;
          try discriminate.
        destruct (Js.lookup_prop "newTodos" fields) eqn:Hf; try discriminate.
        intros [= ->]. exists blob, fields. now rewrite Hf.
      * intros (blob & fields & -> & -> & ->). reflexivity.
    + intros blob err Hb Hp. rewrite Heq. unfold scraped_tasks.
      now rewrite Hb, Hp.
    + intros Hb. rewrite Heq. unfold scraped_tasks. now rewrite Hb.
  - exact match_braces_some.
  - intros parse props Hc.
    destruct (Js.lookup_prop "content" props) as [| | | |s| |] eqn:Hcontent;
      try contradiction.
    + rewrite (todoData_no_content parse props); eauto.
    + rewrite (todoData_no_content parse props); eauto.
    + rewrite (todoData_text parse props s Hcontent). eauto.
  - intros parse.
    now rewrite (todoData_text parse
                   [("content",
                     JStr "Todos have been modified successfully but no json here")]
                   _ eq_refl).
  - exact match_braces_complete.
  - intros s. split; [apply match_braces_none|].
    intros Hnone. destruct (Js.match_braces s) as [blob|] eqn:Hm; [|reflexivity].
    exfalso.
    destruct (match_braces_some s blob Hm) as (pre & body & post & -> & -> & _).
    apply (Hnone pre ((body ++ String "}"%char EmptyString) ++ post)).
    + reflexivity.
    + rewrite !occurs_app. left. right. unfold occurs. simpl. now left.
  - intros parse props pre body post parsed Hc Hm Hs Hpre Hpost Hparse.
    rewrite (todoData_text parse props _ Hc), Hm. cbv zeta. rewrite Hs.
    unfold scraped_tasks.
    rewrite (match_braces_complete pre body post Hpre Hpost), Hparse.
    reflexivity.
Qed.

Lemma todoData_scraped_path_witness :
  todoData sample_parse
    (JObj [("content", JStr sample_rawText); ("tool_use_result", JNull)])
  = Ok (JArr []) /\
  (exists v,
      todoData sample_parse (JObj [("content", JStr "todo list { broken")])
      = Ok v) /\
  Js.match_braces "todo list: {a} and {b} done" = Some "{a} and {b}" /\
  todoData (fun text => if String.eqb text "{x}"
                        then Ok (JObj [("newTodos", JArr [JStr "t1"; JStr "t2"])])
                        else Throw SyntaxError)
           (JObj [("content", JStr "todo list {x} trailing text")])
  = Ok (JArr [JStr "t1"; JStr "t2"]).
Proof.
  split; [|split; [|split]]; cycle 2.
  - refine (proj1 (proj2 (proj2 (proj2 (proj2 todoData_scraped_path))))
                  "todo list: " "a} and {b" " done" _ _);
      unfold occurs; simpl; intros H;
      repeat (destruct H as [H|H]; [discriminate H|]); exact H.
  - refine (proj2 (proj2 (proj2 (proj2 (proj2 (proj2 todoData_scraped_path)))))
                  _ [("content", JStr "todo list {x} trailing text")]
                  "todo list " "x" " trailing text" _
                  eq_refl eq_refl eq_refl _ _ eq_refl);
      unfold occurs; simpl; intros H;
      repeat (destruct H as [H|H]; [discriminate H|]); exact H.
  - destruct (proj1 todoData_scraped_path sample_parse
                [("content", JStr sample_rawText); ("tool_use_result", JNull)]
                sample_rawText eq_refl eq_refl eq_refl) as (_ & Hiff & _).
    apply Hiff. exists sample_blob, [("newTodos", JArr [])].
    repeat split; reflexivity.
  - exact (proj1 (proj2 (proj2 todoData_scraped_path)) sample_parse
                 [("content", JStr "todo list { broken")] I).
Defined.

(** C10.  The structured path takes any truthy [newTodos] of the payload as
    the task list without checking that it is a sequence; only the scraped
    path checks.  So a block with a marker whose payload carries a string
    as [newTodos] yields that string, and the well-formed list embedded in
    its raw text, which the scraped path alone would return, is never
    looked at.  The scraped path returns the parsed [newTodos] when it is
    a sequence and nothing otherwise: the same truthy value that is not a
    sequence is the result when it comes in the payload and is dropped
    when it comes in the text. *)
Theorem todoData_structured_unchecked :
  (forall (parse : string -> exc jsval) (props : list (string * jsval))
          (s : string),
      Js.lookup_prop "content" props = JStr s ->
      has_marker s = true ->
      truthy (structured_newTodos (Js.lookup_prop "tool_use_result" props))
      = true ->
      todoData parse (JObj props)
      = Ok (structured_newTodos (Js.lookup_prop "tool_use_result" props))) /\
  (exists (props : list (string * jsval)) (s : string) (v : jsval),
      Js.lookup_prop "content" props = JStr s /\
      has_marker s = true /\
      structured_newTodos (Js.lookup_prop "tool_use_result" props) = v /\
      truthy v = true /\ Js.isArray v = false /\
      Js.match_braces s = Some sample_blob /\
      forall parse : string -> exc jsval,
        todoData parse (JObj props) = Ok v /\
        (parse sample_blob = Ok (JObj [("newTodos", JArr [])]) ->
         todoData parse (JObj [("content", JStr s)]) = Ok (JArr []))) /\
  (forall (parse : string -> exc jsval) (props : list (string * jsval))
          (pre body post : string) (fields : list (string * jsval))
          (v : jsval),
      Js.lookup_prop "content" props
      = JStr (pre ++ String "{"%char (body ++ String "}"%char post)) ->
      has_marker (pre ++ String "{"%char (body ++ String "}"%char post))
      = true ->
      truthy (structured_newTodos (Js.lookup_prop "tool_use_result" props))
      = false ->
      ~ occurs "{"%char pre -> ~ occurs "}"%char post ->
      parse (String "{"%char (body ++ String "}"%char EmptyString))
      = Ok (JObj fields) ->
      Js.lookup_prop "newTodos" fields = v ->
      todoData parse (JObj props)
      = Ok match v with
           | JArr tasks => JArr tasks
           | _ => JNull
           end) /\
  (forall (parse : string -> exc jsval) (pre body post : string) (v : jsval),
      has_marker (pre ++ String "{"%char (body ++ String "}"%char post))
      = true ->
      ~ occurs "{"%char pre -> ~ occurs "}"%char post ->
      parse (String "{"%char (body ++ String "}"%char EmptyString))
      = Ok (JObj [("newTodos", v)]) ->
      truthy v = true ->
      match v with JArr _ => False | _ => True end ->
      todoData parse
        (JObj [("content",
                JStr (pre ++ String "{"%char (body ++ String "}"%char post)));
               ("tool_use_result", JObj [("newTodos", v)])])
      = Ok v /\
      todoData parse
        (JObj [("content",
                JStr (pre ++ String "{"%char (body ++ String "}"%char post)))])
      = Ok JNull).
Proof.
  assert (Hscraped :
    forall (parse : string -> exc jsval) (props : list (string * jsval))
           (pre body post : string) (fields : list (string * jsval)),
      Js.lookup_prop "content" props
      = JStr (pre ++ String "{"%char (body ++ String "}"%char post)) ->
      has_marker (pre ++ String "{"%char (body ++ String "}"%char post))
      = true ->
      truthy (structured_newTodos (Js.lookup_prop "tool_use_result" props))
      = false ->
      ~ occurs "{"%char pre -> ~ occurs "}"%char post ->
      parse (String "{"%char (body ++ String "}"%char EmptyString))
      = Ok (JObj fields) ->
      todoData parse (JObj props)
      = Ok match Js.lookup_prop "newTodos" fields with
           | JArr tasks => JArr tasks
           | _ => JNull
           end).
  { intros parse props pre body post fields Hc Hm Hs Hpre Hpost Hparse.
    rewrite (todoData_text parse props _ Hc), Hm. cbv zeta. rewrite Hs.
    unfold scraped_tasks.
    now rewrite (match_braces_complete pre body post Hpre Hpost), Hparse. }
  split; [|split; [|split]]; cycle 2.
  - intros parse props pre body post fields v Hc Hm Hs Hpre Hpost Hparse <-.
    now apply (Hscraped parse props pre body post fields).
  - intros parse pre body post v Hm Hpre Hpost Hparse Htruthy Hnot. split.
    + rewrite (todoData_text parse
                 [("content",
                   JStr (pre ++ String "{"%char (body ++ String "}"%char post)));
                  ("tool_use_result", JObj [("newTodos", v)])]
                 _ eq_refl), Hm.
      change (structured_newTodos
                (Js.lookup_prop "tool_use_result"
                   [("content",
                     JStr (pre ++ String "{"%char (body ++ String "}"%char post)));
                    ("tool_use_result", JObj [("newTodos", v)])]))
        with v.
      cbv zeta. now rewrite Htruthy.
    + rewrite (Hscraped parse
                 [("content",
                   JStr (pre ++ String "{"%char (body ++ String "}"%char post)))]
                 pre body post [("newTodos", v)] eq_refl Hm
                 eq_refl Hpre Hpost Hparse).
      change (Js.lookup_prop "newTodos" [("newTodos", v)]) with v.
      destruct v; try reflexivity. contradiction.
  - intros parse props s Hc Hm Hs.
    rewrite (todoData_text parse props s Hc), Hm. simpl. now rewrite Hs.
  - exists [("content", JStr sample_rawText);
            ("tool_use_result", JObj [("newTodos", JStr "not a list")])],
           sample_rawText, (JStr "not a list").
    repeat apply conj; try reflexivity.
    intros parse. split.
    + now rewrite (todoData_text parse
                     [("content", JStr sample_rawText);
                      ("tool_use_result", JObj [("newTodos", JStr "not a list")])]
                     sample_rawText eq_refl).
    + intros Hp.
      rewrite (todoData_text parse [("content", JStr sample_rawText)]
                 sample_rawText eq_refl).
      change (has_marker sample_rawText) with true. cbv iota.
      change (Js.lookup_prop "tool_use_result" [("content", JStr sample_rawText)])
        with JUndefined.
      cbv beta zeta. simpl truthy. cbv iota.
      unfold scraped_tasks.
      change (Js.match_braces sample_rawText) with (Some sample_blob).
      cbv iota. now rewrite Hp.
Qed.

Lemma todoData_structured_unchecked_witness :
  todoData sample_parse
    (JObj [("content", JStr sample_rawText);
           ("tool_use_result", JObj [("newTodos", JNum 7%float)])])
  = Ok (JNum 7%float) /\
  (todoData (fun _ => Ok (JObj [("newTodos", JStr "oops")]))
     (JObj [("content", JStr "todo list {x} end");
            ("tool_use_result", JObj [("newTodos", JStr "oops")])])
   = Ok (JStr "oops") /\
   todoData (fun _ => Ok (JObj [("newTodos", JStr "oops")]))
     (JObj [("content", JStr "todo list {x} end")])
   = Ok JNull).
Proof.
  split.
  - exact (proj1 todoData_structured_unchecked sample_parse
                 [("content", JStr sample_rawText);
                  ("tool_use_result", JObj [("newTodos", JNum 7%float)])]
                 sample_rawText eq_refl eq_refl eq_refl).
  - refine (proj2 (proj2 (proj2 todoData_structured_unchecked))
                  (fun _ => Ok (JObj [("newTodos", JStr "oops")]))
                  "todo list " "x" " end" (JStr "oops")
                  eq_refl _ _ eq_refl eq_refl I);
      unfold occurs; simpl; intros H;
      repeat (destruct H as [H|H]; [discriminate H|]); exact H.
Defined.

(** ** Match-category filter *)

Section Filter.

Implicit Types (results out : list SearchResult.t) (active : gset string).

Lemma filteredResults_loaded results active :
  filteredResults (Some results) active
  = Some (filter (fun r => SearchResult.match_type r ∈ active) results).
Proof. reflexivity. Qed.

Lemma filter_kept results active :
  kept_in_order active results
    (filter (fun r => SearchResult.match_type r ∈ active) results).
Proof.
  induction results as [|r rs IH]; [constructor|].
  destruct (decide (SearchResult.match_type r ∈ active)) as [Hin|Hout].
  - rewrite filter_cons_True by exact Hin. now constructor.
  - rewrite filter_cons_False by exact Hout. now constructor.
Qed.

Lemma kept_filter results active out :
  kept_in_order active results out ->
  out = filter (fun r => SearchResult.match_type r ∈ active) results.
Proof.
  induction 1 as [|r rs out Hin _ IH|r rs out Hout _ IH].
  - reflexivity.
  - rewrite filter_cons_True by exact Hin. now f_equal.
  - now rewrite filter_cons_False by exact Hout.
Qed.

Lemma filter_all results active :
  Forall (fun r => SearchResult.match_type r ∈ active) results ->
  filter (fun r => SearchResult.match_type r ∈ active) results = results.
Proof.
  induction 1 as [|r rs Hr _ IH]; [reflexivity|].
  rewrite filter_cons_True by exact Hr. now f_equal.
Qed.

Lemma filter_none results active :
  active = ∅ ->
  filter (fun r => SearchResult.match_type r ∈ active) results = [].
Proof.
  intros ->. induction results as [|r rs IH]; [reflexivity|].
  rewrite filter_cons_False; [exact IH | set_solver].
Qed.

(** A match type outside the enumeration is not in the default filter set:
    such a result is hidden even with every category selected. *)
Remark filteredResults_outside_enumeration (r : SearchResult.t) :
  ~ in_enumeration r ->
  filteredResults (Some [r]) (list_to_set ALL_MATCH_TYPES) = Some [].
Proof.
  intros Hout. rewrite filteredResults_loaded. f_equal.
  rewrite filter_cons_False; [reflexivity|].
  now rewrite elem_of_list_to_set.
Qed.

End Filter.

(** C7.  [filteredResults] keeps exactly the results whose match type is
    in the active set, in the order they came in; with every match type
    of the enumeration active, results whose match types belong to the
    enumeration all pass; with no match type active none does. *)
Theorem filteredResults_subsequence :
  (forall (results out : list SearchResult.t) (active : gset string),
      filteredResults (Some results) active = Some out <->
      kept_in_order active results out) /\
  (forall (results : list SearchResult.t) (active : gset string),
      exists out,
        filteredResults (Some results) active = Some out /\
        sublist out results /\
        forall r, r ∈ out <->
                  r ∈ results /\ SearchResult.match_type r ∈ active) /\
  (forall results : list SearchResult.t,
      Forall in_enumeration results ->
      filteredResults (Some results) (list_to_set ALL_MATCH_TYPES)
      = Some results) /\
  (forall results : list SearchResult.t,
      filteredResults (Some results) ∅ = Some []).
Proof.
  repeat apply conj.
  - intros results out active. rewrite filteredResults_loaded. split.
    + intros [= <-]. apply filter_kept.
    + intros H. f_equal. symmetry. now apply kept_filter.
  - intros results active. eexists. split; [apply filteredResults_loaded|].
    split.
    + apply sublist_filter.
    + intros r. rewrite list_elem_of_filter. tauto.
  - intros results Hall. rewrite filteredResults_loaded. f_equal.
    apply filter_all. eapply Forall_impl; [exact Hall|].
    intros r Hr. now apply elem_of_list_to_set.
  - intros results. rewrite filteredResults_loaded. f_equal.
    now apply filter_none.
Qed.

Lemma filteredResults_subsequence_witness :
  Forall in_enumeration [hit_content; hit_tool] /\
  filteredResults (Some [hit_content; hit_tool]) (list_to_set ALL_MATCH_TYPES)
  = Some [hit_content; hit_tool].
Proof.
  assert (H : Forall in_enumeration [hit_content; hit_tool]).
  { unfold in_enumeration. repeat constructor. }
  split; [exact H|].
  exact (proj1 (proj2 (proj2 filteredResults_subsequence)) _ H).
Defined.

(** ** Search result resolver *)

Section Resolver.

Lemma find_app_first {A : Type} (p : A -> bool) (l1 l2 : list A) :
  List.find p (l1 ++ l2) =
  match List.find p l1 with
  | Some x => Some x
  | None => List.find p l2
  end.
Proof.
  induction l1 as [|a l1 IH]; simpl; [reflexivity|].
  destruct (p a); [reflexivity | exact IH].
Qed.

(** The nested scan is a scan of all sessions in project order. *)
Lemma find_session_all (sid : string) (projects : list ProjectFolder.t) :
  find_session sid projects
  = List.find (fun s => String.eqb (ChatSession.id s) sid)
              (all_sessions projects).
Proof.
  unfold all_sessions.
  induction projects as [|project rest IH]; simpl; [reflexivity|].
  rewrite find_app_first, IH. reflexivity.
Qed.

Lemma find_first_match (sid : string) (before after : list ChatSession.t)
    (session : ChatSession.t) :
  Forall (fun s => ChatSession.id s <> sid) before ->
  ChatSession.id session = sid ->
  List.find (fun s => String.eqb (ChatSession.id s) sid)
            (before ++ session :: after) = Some session.
Proof.
  intros Hbefore Hid.
  induction Hbefore as [|s before Hs _ IH]; simpl.
  - apply String.eqb_eq in Hid. now rewrite Hid.
  - apply String.eqb_neq in Hs. now rewrite Hs.
Qed.

Lemma find_no_match (sid : string) (sessions : list ChatSession.t) :
  Forall (fun s => ChatSession.id s <> sid) sessions ->
  List.find (fun s => String.eqb (ChatSession.id s) sid) sessions = None.
Proof.
  induction 1 as [|s sessions Hs _ IH]; simpl; [reflexivity|].
  apply String.eqb_neq in Hs. now rewrite Hs.
Qed.

Lemma slice_0_prefix (n : nat) (s : string) :
  exists rest,
    s = JsString.slice_0 n s ++ rest /\
    String.length (JsString.slice_0 n s) = Nat.min n (String.length s).
Proof.
  unfold JsString.slice_0. revert n.
  induction s as [|a s IH]; intros [|n]; simpl.
  - now exists EmptyString.
  - now exists EmptyString.
  - now exists (String a s).
  - destruct (IH n) as (rest & Hs & Hlen). exists rest.
    split; [now rewrite <- Hs | now rewrite Hlen].
Qed.

End Resolver.

(** C4.  [handleSearchResultClick] scans the projects in order and the
    sessions of each in order and selects the first session whose id is
    the result's session id; when no session matches (or the projects
    are not loaded) it selects a placeholder with that id, the title
    "Search Result: " followed by the first 50 characters of the snippet
    and "...", both time stamps read from the clock, an empty project
    path and a message count of 0.  It selects a session in every case. *)
Theorem handleSearchResultClick_resolves :
  (forall (projects : list ProjectFolder.t) (result : SearchResult.t)
          (c : Clock) (before after : list ChatSession.t)
          (session : ChatSession.t),
      all_sessions projects = (before ++ session :: after)%list ->
      Forall (fun s => ChatSession.id s <> SearchResult.session_id result)
             before ->
      ChatSession.id session = SearchResult.session_id result ->
      handleSearchResultClick (Some projects) result c = (session, c)) /\
  (forall (projects : option (list ProjectFolder.t)) (result : SearchResult.t)
          (c : Clock),
      (projects = None \/
       exists ps, projects = Some ps /\
         Forall (fun s => ChatSession.id s <> SearchResult.session_id result)
                (all_sessions ps)) ->
      handleSearchResultClick projects result c
      = (placeholder result (readings c (taken c)) (readings c (S (taken c))),
         {| readings := readings c; taken := S (S (taken c)) |})) /\
  (forall snippet : string,
      exists rest,
        snippet = JsString.slice_0 50 snippet ++ rest /\
        String.length (JsString.slice_0 50 snippet)
        = Nat.min 50 (String.length snippet)) /\
  (forall (projects : option (list ProjectFolder.t)) (result : SearchResult.t)
          (c : Clock),
      exists session c',
        handleSearchResultClick projects result c = (session, c') /\
        ChatSession.id session = SearchResult.session_id result).
Proof.
  repeat apply conj.
  - intros projects result c before after session Hall Hbefore Hid.
    unfold handleSearchResultClick.
    rewrite find_session_all, Hall.
    now rewrite (find_first_match _ before after session Hbefore Hid).
  - intros projects result c [-> | (ps & -> & Hnone)]; [reflexivity|].
    unfold handleSearchResultClick.
    rewrite find_session_all, (find_no_match _ _ Hnone). reflexivity.
  - intros snippet. apply slice_0_prefix.
  - intros projects result c. unfold handleSearchResultClick.
    destruct projects as [ps|]; [|eexists _, _; split; reflexivity].
    rewrite find_session_all.
    destruct (List.find _ (all_sessions ps)) as [session|] eqn:Hfind.
    + exists session, c. split; [reflexivity|].
      apply List.find_some in Hfind as [_ Hid]. now apply String.eqb_eq.
    + eexists _, _; split; reflexivity.
Qed.

Lemma handleSearchResultClick_resolves_witness :
  handleSearchResultClick (Some sample_projects) hit_content sample_clock
  = (session_of "s-2", sample_clock) /\
  fst (handleSearchResultClick (Some sample_projects) hit_tool sample_clock)
  = placeholder hit_tool "2025-03-01T10:00:00.000Z" "2025-03-01T10:00:00.001Z".
Proof.
  split.
  - refine (proj1 handleSearchResultClick_resolves sample_projects hit_content
                  sample_clock [session_of "s-1"] [session_of "s-3"]
                  (session_of "s-2") eq_refl _ eq_refl).
    constructor; [discriminate | constructor].
  - rewrite (proj1 (proj2 handleSearchResultClick_resolves)
                   (Some sample_projects) hit_tool sample_clock).
    + reflexivity.
    + right. exists sample_projects. split; [reflexivity|].
      repeat (constructor; [discriminate|]). constructor.
Defined.

(** * Further properties of the code *)

(** ** The filter state of the sidebar *)

Section FilterState.

Implicit Types (s active : gset string) (m : string).

Lemma elem_of_toggleFilter m s (x : string) :
  x ∈ toggleFilter m s <-> (x = m /\ m ∉ s) \/ (x <> m /\ x ∈ s).
Proof.
  unfold toggleFilter. destruct (decide (m ∈ s)) as [Hin|Hout].
  - rewrite elem_of_difference, elem_of_singleton. split.
    + intros [Hx Hne]. now right.
    + intros [[_ Hm] | [Hne Hx]]; [contradiction | now split].
  - rewrite elem_of_union, elem_of_singleton.
    destruct (decide (x = m)) as [->|Hne]; [tauto|]. tauto.
Qed.

Lemma full_set_elem (x : string) :
  x ∈ (list_to_set ALL_MATCH_TYPES : gset string) <-> x ∈ ALL_MATCH_TYPES.
Proof. apply elem_of_list_to_set. Qed.

Lemma ALL_MATCH_TYPES_NoDup : NoDup ALL_MATCH_TYPES.
Proof.
  unfold ALL_MATCH_TYPES.
  repeat (apply NoDup_cons; split;
          [intros H; repeat (apply elem_of_cons in H as [H|H];
                             [discriminate H|]); now apply elem_of_nil in H |]).
  apply NoDup_nil_2.
Qed.

Lemma size_full_set :
  size (list_to_set ALL_MATCH_TYPES : gset string) = List.length ALL_MATCH_TYPES.
Proof. apply size_list_to_set, ALL_MATCH_TYPES_NoDup. Qed.

Lemma filter_reachable_subset s :
  filter_reachable s -> s ⊆ list_to_set ALL_MATCH_TYPES.
Proof.
  induction 1 as [|m s Hm _ IH|s _ IH|s _ IH].
  - reflexivity.
  - intros x [[-> _] | [_ Hx]]%elem_of_toggleFilter.
    + now apply full_set_elem.
    + now apply IH.
  - unfold toggleAllFilters. destruct (Nat.eqb _ _); [apply empty_subseteq | reflexivity].
  - reflexivity.
Qed.

Lemma subset_full_size s :
  s ⊆ list_to_set ALL_MATCH_TYPES ->
  size s <= List.length ALL_MATCH_TYPES /\
  (size s = List.length ALL_MATCH_TYPES <-> s = list_to_set ALL_MATCH_TYPES).
Proof.
  intros Hsub. rewrite <- size_full_set. split.
  - now apply subseteq_size.
  - split; [|now intros ->].
    intros Hsize.
    apply set_subseteq_size_eq; [exact Hsub | now rewrite Hsize].
Qed.

End FilterState.

(** X1.  Ticking a filter check box flips the membership of that match
    type and of no other; ticking it twice restores the set. *)
Theorem toggleFilter_flips_one :
  (forall (m x : string) (s : gset string),
      x ∈ toggleFilter m s <-> (x = m /\ m ∉ s) \/ (x <> m /\ x ∈ s)) /\
  (forall (m : string) (s : gset string),
      toggleFilter m (toggleFilter m s) = s).
Proof.
  split.
  - intros m x s. apply elem_of_toggleFilter.
  - intros m s. apply set_eq. intros x.
    rewrite !elem_of_toggleFilter.
    destruct (decide (x = m)) as [->|Hne]; destruct (decide (m ∈ s)); tauto.
Qed.

Lemma toggleFilter_flips_one_witness :
  toggleFilter "thinking" (toggleFilter "thinking" {["content"]})
  = ({["content"]} : gset string).
Proof. exact (proj2 toggleFilter_flips_one "thinking" {["content"]}). Defined.

(** X2.  Every filter set the sidebar can reach holds only match types of
    the enumeration; hence the size test of [toggleAllFilters] and of the
    "Clear" button is a test for "everything selected": "All"/"None"
    selects nothing when everything is selected and everything
    otherwise, and "Clear" is offered exactly when something is
    deselected. *)
Theorem filter_reachable_invariant :
  forall s : gset string,
    filter_reachable s ->
    s ⊆ list_to_set ALL_MATCH_TYPES /\
    size s <= 6 /\
    (s = list_to_set ALL_MATCH_TYPES -> toggleAllFilters s = ∅) /\
    (s <> list_to_set ALL_MATCH_TYPES ->
     toggleAllFilters s = list_to_set ALL_MATCH_TYPES) /\
    (clear_button_shown s = true <-> s <> list_to_set ALL_MATCH_TYPES).
Proof.
  intros s Hreach.
  pose proof (filter_reachable_subset s Hreach) as Hsub.
  destruct (subset_full_size s Hsub) as [Hle Hiff].
  repeat apply conj.
  - exact Hsub.
  - exact Hle.
  - intros Hfull. apply Hiff in Hfull. unfold toggleAllFilters.
    now rewrite Hfull, Nat.eqb_refl.
  - intros Hne. unfold toggleAllFilters.
    destruct (Nat.eqb_spec (size s) (List.length ALL_MATCH_TYPES)) as [Heq|_];
      [|reflexivity].
    now apply Hiff in Heq.
  - unfold clear_button_shown. rewrite Nat.ltb_lt.
    intros Hlt Hfull. apply Hiff in Hfull. lia.
  - unfold clear_button_shown. rewrite Nat.ltb_lt.
    intros Hne. destruct (Nat.eq_dec (size s) (List.length ALL_MATCH_TYPES))
      as [Heq|Hneq]; [now apply Hiff in Heq | lia].
Qed.

Lemma filter_reachable_invariant_witness :
  toggleAllFilters (toggleFilter "thinking" (list_to_set ALL_MATCH_TYPES))
  = list_to_set ALL_MATCH_TYPES.
Proof.
  assert (Hreach : filter_reachable
                     (toggleFilter "thinking" (list_to_set ALL_MATCH_TYPES))).
  { apply reach_toggle; [|apply reach_initial].
    apply list_elem_of_In. simpl. tauto. }
  destruct (filter_reachable_invariant _ Hreach) as (_ & _ & _ & Hother & _).
  apply Hother. intros Heq.
  assert (Hin : "thinking" ∈ toggleFilter "thinking"
                  (list_to_set ALL_MATCH_TYPES : gset string)).
  { rewrite Heq. apply elem_of_list_to_set.
    apply list_elem_of_In. simpl. tauto. }
  apply elem_of_toggleFilter in Hin as [[_ Hout] | [Hne _]];
    [|now apply Hne].
  apply Hout, elem_of_list_to_set.
  apply list_elem_of_In. simpl. tauto.
Defined.

(** X3.  Deselecting an active match type removes from the shown results
    exactly those of that type and keeps the others in place; selecting
    an inactive one only adds results of that type. *)
Theorem toggleFilter_filteredResults :
  forall (results : list SearchResult.t) (m : string) (active : gset string),
    (m ∈ active ->
     filteredResults (Some results) (toggleFilter m active)
     = filter (fun r => SearchResult.match_type r <> m)
         <$> filteredResults (Some results) active) /\
    (m ∉ active ->
     filteredResults (Some results) active
     = filter (fun r => SearchResult.match_type r <> m)
         <$> filteredResults (Some results) (toggleFilter m active)).
Proof.
  intros results m active.
  rewrite !filteredResults_loaded. cbn [fmap option_fmap option_map].
  split; intros Hm; f_equal; rewrite list_filter_filter;
    apply list_filter_iff; intros r; rewrite elem_of_toggleFilter.
  - tauto.
  - split; [|tauto]. intros Hr. split; [congruence | right; split; [congruence | exact Hr]].
Qed.

Lemma toggleFilter_filteredResults_witness :
  filteredResults (Some [hit_content; hit_tool])
                  (toggleFilter "content" (list_to_set ALL_MATCH_TYPES))
  = Some [hit_tool].
Proof.
  rewrite (proj1 (toggleFilter_filteredResults [hit_content; hit_tool]
                    "content" (list_to_set ALL_MATCH_TYPES))).
  - reflexivity.
  - apply elem_of_list_to_set, list_elem_of_In. simpl. tauto.
Defined.

(** X4.  The count beside "Search Results" is the number of results shown;
    it is followed by " of n" exactly when the filter hides some of the
    [n] results, and nothing is printed before the results arrive. *)
Theorem resultsCount_reports_hidden :
  forall (results : list SearchResult.t) (active : gset string),
    exists shown,
      filteredResults (Some results) active = Some shown /\
      List.length shown <= List.length results /\
      (Forall (fun r => SearchResult.match_type r ∈ active) results ->
       resultsCount (Some results) active
       = Some (" (" ++ decimal (List.length results) ++ ")")) /\
      (Exists (fun r => SearchResult.match_type r ∉ active) results ->
       List.length shown < List.length results /\
       resultsCount (Some results) active
       = Some (" (" ++ decimal (List.length shown) ++ " of " ++
               decimal (List.length results) ++ ")")) /\
      resultsCount None active = None.
Proof.
  intros results active. eexists. split; [apply filteredResults_loaded|].
  split; [apply length_filter|]. split; [|split; [|reflexivity]].
  - intros Hall. unfold resultsCount. rewrite filteredResults_loaded.
    rewrite (filter_all results active Hall), Nat.eqb_refl. reflexivity.
  - intros Hex. apply Exists_exists in Hex as (r & Hr & Hout).
    assert (Hlt : List.length
                    (filter (fun r => SearchResult.match_type r ∈ active) results)
                  < List.length results).
    { now apply (length_filter_lt _ _ r). }
    split; [exact Hlt|].
    unfold resultsCount. rewrite filteredResults_loaded.
    destruct (Nat.eqb_spec
                (List.length
                   (filter (fun r => SearchResult.match_type r ∈ active) results))
                (List.length results)) as [Heq|_]; [lia | reflexivity].
Qed.

Lemma resultsCount_reports_hidden_witness :
  resultsCount (Some [hit_content; hit_tool]) {["tool_name"]}
  = Some " (1 of 2)".
Proof.
  destruct (resultsCount_reports_hidden [hit_content; hit_tool] {["tool_name"]})
    as (shown & Hshown & _ & _ & Hhidden & _).
  rewrite filteredResults_loaded in Hshown. injection Hshown as <-.
  destruct Hhidden as [_ Hcount].
  - apply Exists_cons_hd. intros Hin. apply elem_of_singleton in Hin.
    discriminate Hin.
  - exact Hcount.
Defined.

(** X5.  The result list shows items only when the filter leaves some;
    "No results match current filters" appears only when a query was
    typed, the search returned results, and the filter hides every one. *)
Theorem resultsBody_cases :
  (forall (isLoading : bool) (q : string)
          (searchResults : option (list SearchResult.t))
          (active : gset string) (items : list SearchResult.t),
      resultsBody isLoading q searchResults active = ResultItems items <->
      isLoading = false /\ items <> [] /\
      filteredResults searchResults active = Some items) /\
  (forall (isLoading : bool) (q : string)
          (searchResults : option (list SearchResult.t))
          (active : gset string) (available : string),
      resultsBody isLoading q searchResults active
      = NoMatchForFilters available ->
      isLoading = false /\ q <> "" /\
      exists results,
        searchResults = Some results /\ results <> [] /\
        Forall (fun r => SearchResult.match_type r ∉ active) results).
Proof.
  split.
  - intros isLoading q sr active items. unfold resultsBody.
    destruct isLoading; [split; [discriminate | intros [H _]; discriminate H]|].
    destruct (filteredResults sr active) as [[|item rest]|] eqn:Hf.
    + split.
      * destruct (negb _); [destruct sr as [[|? ?]|]|]; discriminate.
      * intros (_ & Hne & [= <-]). contradiction.
    + split.
      * intros [= <-]. repeat split. discriminate.
      * intros (_ & _ & [= <-]). reflexivity.
    + split.
      * destruct (negb _); [destruct sr as [[|? ?]|]|]; discriminate.
      * intros (_ & _ & H). discriminate H.
  - intros isLoading q sr active available. unfold resultsBody.
    destruct isLoading; [discriminate|].
    destruct (filteredResults sr active) as [[|item rest]|] eqn:Hf;
      [| discriminate |].
    + destruct (String.eqb_spec q "") as [->|Hq]; [discriminate|]. simpl.
      destruct sr as [[|r rs]|]; try discriminate. intros _.
      repeat split; [exact Hq|]. exists (r :: rs).
      repeat split; [discriminate|].
      rewrite filteredResults_loaded in Hf. injection Hf as Hf.
      apply Forall_forall. intros x Hx Hin.
      exact (filter_nil_not_elem_of _ _ x Hf Hin Hx).
    + destruct sr as [rs|]; [rewrite filteredResults_loaded in Hf; discriminate Hf|].
      destruct (negb _); discriminate.
Qed.

Lemma resultsBody_cases_witness :
  resultsBody false "cat" (Some [hit_content]) ∅
  = NoMatchForFilters "1 result available" /\
  exists results,
    Some [hit_content] = Some results /\ results <> [] /\
    Forall (fun r => SearchResult.match_type r ∉ (∅ : gset string)) results.
Proof.
  split; [reflexivity|].
  exact (proj2 (proj2 (proj2 resultsBody_cases false "cat"
                         (Some [hit_content]) ∅ "1 result available"
                         eq_refl))).
Defined.

(** ** Display tables of the sidebar *)

Ltac by_match_type m :=
  destruct (String.eqb_spec m "content") as [->|?];
  [|destruct (String.eqb_spec m "thinking") as [->|?];
    [|destruct (String.eqb_spec m "tool_name") as [->|?];
      [|destruct (String.eqb_spec m "tool_input") as [->|?];
        [|destruct (String.eqb_spec m "tool_result") as [->|?];
          [|destruct (String.eqb_spec m "tool_structured_result")
              as [->|?]]]]]].

Lemma not_in_enumeration (m : string) :
  m <> "content" -> m <> "thinking" -> m <> "tool_name" ->
  m <> "tool_input" -> m <> "tool_result" -> m <> "tool_structured_result" ->
  m ∉ ALL_MATCH_TYPES.
Proof.
  intros H1 H2 H3 H4 H5 H6 Hin. apply list_elem_of_In in Hin. simpl in Hin.
  intuition congruence.
Qed.

(** X6.  The icon, colour and label tables have a case for every match
    type of [ALL_MATCH_TYPES] and for nothing else: the fallback icon,
    the grey colour and the label "Match" are used exactly for match
    types outside the enumeration. *)
Theorem match_type_tables_cover_enumeration :
  forall m : string,
    (getMatchTypeLabel m = "Match" <-> m ∉ ALL_MATCH_TYPES) /\
    (getMatchTypeIcon m = Hash <-> m ∉ ALL_MATCH_TYPES) /\
    (getMatchTypeColor m
     = "bg-gray-100 text-gray-800 dark:bg-gray-600/50 dark:text-gray-200"
     <-> m ∉ ALL_MATCH_TYPES).
Proof.
  intros m.
  assert (Hin : forall x, In x ALL_MATCH_TYPES -> x ∈ ALL_MATCH_TYPES)
    by (intros x; apply list_elem_of_In).
  unfold getMatchTypeLabel, getMatchTypeIcon, getMatchTypeColor.
  by_match_type m;
    try (repeat split; intros H; try discriminate H;
         exfalso; apply H, Hin; simpl; tauto).
  repeat split; intros _; try reflexivity; now apply not_in_enumeration.
Qed.

Lemma match_type_tables_cover_enumeration_witness :
  getMatchTypeLabel "file_name" = "Match" <-> "file_name" ∉ ALL_MATCH_TYPES.
Proof. exact (proj1 (match_type_tables_cover_enumeration "file_name")). Defined.

(** ** Escaping the query of [highlightText] *)

Section Escape.

Lemma special_is_syntax (c : ascii) : regex_special c = SyntaxCharacter c.
Proof. destruct c as [[] [] [] [] [] [] [] []]; reflexivity. Qed.

Lemma special_backslash (c : ascii) :
  regex_special c = false -> Ascii.eqb c "\"%char = false.
Proof. destruct (Ascii.eqb_spec c "\"%char) as [->|]; [discriminate | reflexivity]. Qed.

End Escape.

(** X7.  The characters [highlightText] escapes in the query are exactly
    the syntax characters of a regular expression, so the escaped query
    is a pattern that spells the query itself, character by character;
    a query without such characters is left as it is. *)
Theorem escapeRegExp_spells_query :
  (forall c : ascii, regex_special c = SyntaxCharacter c) /\
  (forall query : string,
      literal_of_pattern (escapeRegExp query) = Some query) /\
  (forall query : string,
      Forall (fun c => regex_special c = false) (list_ascii_of_string query) ->
      escapeRegExp query = query).
Proof.
  split; [exact special_is_syntax|]. split.
  - induction query as [|c rest IH]; [reflexivity|].
    cbn [escapeRegExp]. destruct (regex_special c) eqn:Hc.
    + cbn [literal_of_pattern]. rewrite Ascii.eqb_refl.
      rewrite <- special_is_syntax, Hc, IH. reflexivity.
    + cbn [literal_of_pattern].
      rewrite (special_backslash c Hc), <- special_is_syntax, Hc, IH.
      reflexivity.
  - induction query as [|c rest IH]; [reflexivity|].
    cbn [list_ascii_of_string escapeRegExp]. intros Hall.
    inversion Hall as [|? ? Hc Hrest]; subst.
    rewrite Hc. f_equal. now apply IH.
Qed.

Lemma escapeRegExp_spells_query_witness :
  escapeRegExp "a.b" = "a\.b" /\ escapeRegExp "plain" = "plain".
Proof.
  split; [reflexivity|].
  apply (proj2 (proj2 escapeRegExp_spells_query) "plain").
  repeat constructor.
Defined.

(** ** The project label of the chat header *)

Section ProjectLabel.

Lemma split_on_not_nil (sep : ascii) (s : string) : split_on sep s <> [].
Proof.
  destruct s as [|c rest]; simpl; [discriminate|].
  destruct (Ascii.eqb c sep); [discriminate|].
  destruct (split_on sep rest); discriminate.
Qed.

Lemma split_on_free (sep : ascii) (s : string) :
  ~ occurs sep s -> split_on sep s = [s].
Proof.
  unfold occurs. induction s as [|c rest IH]; simpl; [reflexivity|].
  intros Hfree. destruct (Ascii.eqb_spec c sep) as [->|Hne]; [tauto|].
  rewrite IH by tauto. reflexivity.
Qed.

Lemma last_app_not_nil {A : Type} (front l : list A) (d : A) :
  l <> [] -> List.last (front ++ l) d = List.last l d.
Proof.
  intros Hl. induction front as [|x front IH]; [reflexivity|].
  cbn [app]. rewrite <- IH.
  destruct (front ++ l)%list eqn:Happ; [|reflexivity].
  apply app_eq_nil in Happ as [_ ->]. contradiction.
Qed.

Lemma split_on_app (sep : ascii) (dir rest : string) :
  exists piece pieces,
    split_on sep (dir ++ String sep rest)
    = ((piece :: pieces) ++ split_on sep rest)%list.
Proof.
  induction dir as [|c dir (piece & pieces & IH)]; cbn [String.append split_on].
  - rewrite Ascii.eqb_refl. now exists EmptyString, [].
  - rewrite IH. destruct (Ascii.eqb c sep).
    + now exists EmptyString, (piece :: pieces).
    + now exists (String c piece), pieces.
Qed.

Lemma last_split_on_app (sep : ascii) (dir rest : string) :
  List.last (split_on sep (dir ++ String sep rest)) EmptyString
  = List.last (split_on sep rest) EmptyString.
Proof.
  destruct (split_on_app sep dir rest) as (piece & pieces & ->).
  apply last_app_not_nil, split_on_not_nil.
Qed.

Lemma concat_split_on (sep : ascii) (s : string) :
  String.concat (String sep EmptyString) (split_on sep s) = s.
Proof.
  induction s as [|c rest IH]; [reflexivity|].
  cbn [split_on]. destruct (Ascii.eqb_spec c sep) as [->|Hne].
  - destruct (split_on sep rest) as [|piece pieces] eqn:Hs;
      [now apply split_on_not_nil in Hs|].
    cbn [String.concat]. simpl. now rewrite <- IH.
  - destruct (split_on sep rest) as [|piece pieces] eqn:Hs;
      [now apply split_on_not_nil in Hs|].
    destruct pieces; simpl in *; now rewrite <- IH.
Qed.

End ProjectLabel.

(** X8.  The chat header shows the part of the project path after its
    last backslash; a path without backslash, or one that ends in a
    backslash, is shown whole.  Splitting loses nothing: the pieces
    joined by backslashes are the path. *)
Theorem projectLabel_last_component :
  (forall dir name : string,
      ~ occurs "\"%char name -> name <> "" ->
      projectLabel (dir ++ String "\"%char name) = name) /\
  (forall name : string,
      ~ occurs "\"%char name -> projectLabel name = name) /\
  (forall dir : string,
      projectLabel (dir ++ String "\"%char EmptyString)
      = dir ++ String "\"%char EmptyString) /\
  (forall path : string,
      String.concat (String "\"%char EmptyString) (split_on "\"%char path)
      = path).
Proof.
  repeat apply conj.
  - intros dir name Hfree Hne. unfold projectLabel.
    rewrite last_split_on_app, (split_on_free _ _ Hfree). simpl.
    destruct (String.eqb_spec name "") as [->|_]; [contradiction | reflexivity].
  - intros name Hfree. unfold projectLabel.
    rewrite (split_on_free _ _ Hfree). simpl.
    destruct (String.eqb_spec name "") as [->|_]; reflexivity.
  - intros dir. unfold projectLabel. rewrite last_split_on_app. reflexivity.
  - intros path. apply concat_split_on.
Qed.

Lemma projectLabel_last_component_witness :
  projectLabel "C:\Users\dev\viewer" = "viewer".
Proof.
  apply (proj1 projectLabel_last_component "C:\Users\dev" "viewer").
  - unfold occurs. simpl. intros H.
    repeat (destruct H as [H|H]; [discriminate H|]). exact H.
  - discriminate.
Defined.

(** ** Helpers on messages *)

Section MessageHelpers.

Lemma filter_exc_pure {A : Type} (callback : A -> exc bool) (p : A -> bool)
    (items : list A) :
  Forall (fun x => callback x = Ok (p x)) items ->
  filter_exc callback items = Ok (List.filter p items).
Proof.
  induction 1 as [|x items Hx _ IH]; [reflexivity|].
  cbn [filter_exc List.filter]. rewrite Hx, IH. exc_simpl.
  destruct (p x); reflexivity.
Qed.

Lemma map_exc_pure {A B : Type} (callback : A -> exc B) (g : A -> B)
    (items : list A) :
  Forall (fun x => callback x = Ok (g x)) items ->
  map_exc callback items = Ok (List.map g items).
Proof.
  induction 1 as [|x items Hx _ IH]; [reflexivity|].
  cbn [map_exc List.map]. rewrite Hx, IH. reflexivity.
Qed.

Lemma is_str_falsy (v : jsval) (lit : string) :
  truthy v = false -> lit <> "" -> Js.is_str v lit = false.
Proof.
  destruct v; try reflexivity. simpl. intros Hs Hlit.
  destruct (String.eqb_spec s "") as [->|]; [|discriminate Hs].
  destruct (String.eqb_spec "" lit); congruence.
Qed.

(** The dispatch of [ContentBlockRenderer] on a resolved tag reaches
    [ToolUseBlock] exactly for the tag ["tool_use"]. *)
Lemma renders_as_tool_use_object (props : list (string * jsval)) :
  is_tool_use (JObj props) = Ok (renders_as_tool_use (JObj props)).
Proof.
  unfold is_tool_use, renders_as_tool_use, ContentBlockRenderer.
  rewrite blockType_object. exc_simpl.
  set (bt := Js.lookup_prop "block_type" props).
  set (ty := Js.lookup_prop "type" props).
  assert (Hdispatch : forall tag,
    match
      (if Js.is_str tag "text"
       then Ok (MessageText (Js.or (Js.lookup_prop "text" props) (JStr "")))
       else if Js.is_str tag "tool_use" then Ok (ToolUseBlock (JObj props))
       else if Js.is_str tag "tool_result" then Ok (ToolResultBlock (JObj props))
       else if Js.is_str tag "thinking" then Ok (ThinkingBlock (JObj props))
       else Ok (UnknownBlock tag (map fst props) (JObj props)))
    with
    | Ok (ToolUseBlock _) => true
    | _ => false
    end = Js.is_str tag "tool_use").
  { intros tag. destruct (Js.is_str tag "text") eqn:Htext.
    - apply is_str_eq in Htext. now subst.
    - destruct (Js.is_str tag "tool_use"); [reflexivity|].
      destruct (Js.is_str tag "tool_result"); [reflexivity|].
      destruct (Js.is_str tag "thinking"); reflexivity. }
  destruct (truthy bt) eqn:Hbt.
  - now rewrite Hdispatch.
  - destruct (truthy ty) eqn:Hty.
    + now rewrite Hdispatch.
    + rewrite Hdispatch. simpl. f_equal. now apply is_str_falsy.
Qed.

Lemma ContentBlockRenderer_object_ok (props : list (string * jsval)) :
  exists e, ContentBlockRenderer (JObj props) = Ok e.
Proof.
  unfold ContentBlockRenderer. rewrite blockType_object. exc_simpl.
  repeat match goal with
         | |- context [if Js.is_str ?t ?l then _ else _] =>
             destruct (Js.is_str t l)
         end; eauto.
Qed.

Lemma ContentBlockRenderer_throws_TypeError (block : jsval) (e : js_error) :
  ContentBlockRenderer block = Throw e -> e = TypeError.
Proof.
  destruct block as [| | | | | |props];
    try (unfold ContentBlockRenderer, blockType; exc_simpl; congruence).
  destruct (ContentBlockRenderer_object_ok props) as (el & ->). discriminate.
Qed.

End MessageHelpers.

(** X9.  On a message whose content is a list of block objects,
    [getToolCalls] returns, in order, exactly the blocks that
    [ContentBlockRenderer] draws as a tool invocation, and [hasToolCalls]
    tells whether there is one; a message with plain text has none. *)
Theorem getToolCalls_agrees_with_renderer :
  (forall (message : ChatMessage.t) (blocks : list jsval),
      ChatMessage.content message = JArr blocks ->
      Forall is_object blocks ->
      getToolCalls message = Ok (List.filter renders_as_tool_use blocks) /\
      hasToolCalls message = Ok (existsb renders_as_tool_use blocks)) /\
  (forall block : jsval,
      renders_as_tool_use block = true <->
      ContentBlockRenderer block = Ok (ToolUseBlock block)) /\
  (forall (message : ChatMessage.t) (s : string),
      ChatMessage.content message = JStr s ->
      getToolCalls message = Ok [] /\ hasToolCalls message = Ok false).
Proof.
  split; [|split].
  - intros message blocks Hc Hobj.
    assert (Hcalls : getToolCalls message
                     = Ok (List.filter renders_as_tool_use blocks)).
    { unfold getToolCalls. rewrite Hc. apply filter_exc_pure.
      eapply Forall_impl; [exact Hobj|].
      intros [| | | | | |props] []. apply renders_as_tool_use_object. }
    split; [exact Hcalls|].
    unfold hasToolCalls. rewrite Hcalls. exc_simpl. f_equal.
    clear. induction blocks as [|b blocks IH]; [reflexivity|].
    simpl. destruct (renders_as_tool_use b); [reflexivity | exact IH].
  - intros block. unfold renders_as_tool_use. split.
    + destruct (ContentBlockRenderer block) as [[]|] eqn:Hr; try discriminate.
      intros _. f_equal. f_equal.
      unfold ContentBlockRenderer in Hr. exc_simpl.
      destruct (blockType block); [|discriminate].
      repeat match type of Hr with
             | context [if Js.is_str ?t ?l then _ else _] =>
                 destruct (Js.is_str t l)
             end;
        try (destruct (Js.get block "text"); discriminate);
        try (destruct (Js.Object_keys block); discriminate);
        congruence.
    + now intros ->.
  - intros message s Hc. unfold hasToolCalls, getToolCalls. now rewrite Hc.
Qed.

Lemma getToolCalls_agrees_with_renderer_witness :
  getToolCalls
    (message_with
       (JArr [JObj [("type", JStr "text"); ("text", JStr "run it")];
              JObj [("block_type", JStr "tool_use"); ("name", JStr "Bash")]]))
  = Ok [JObj [("block_type", JStr "tool_use"); ("name", JStr "Bash")]].
Proof.
  refine (proj1 (proj1 getToolCalls_agrees_with_renderer
                   (message_with _)
                   [JObj [("type", JStr "text"); ("text", JStr "run it")];
                    JObj [("block_type", JStr "tool_use"); ("name", JStr "Bash")]]
                   eq_refl _)).
  repeat constructor.
Defined.

Section ExtractText.

Variable ToString : jsval -> string.
Hypothesis ToString_string : forall s : string, ToString (JStr s) = s.

Lemma processBackspaces_as_fold (raw : string) :
  processBackspaces raw = repair_spec raw.
Proof.
  unfold processBackspaces, repair_spec.
  destruct (JsString.includes raw (String BS EmptyString)) eqn:Hinc; simpl.
  - exact (processBackspaces_loop_fold raw EmptyString EmptyString).
  - apply includes_BS_false in Hinc. now rewrite fold_repair_bs_free.
Qed.

Lemma extractMessageText_result (message : ChatMessage.t) (r : string) :
  extractMessageText ToString message = Ok r ->
  exists rawText, r = processBackspaces rawText.
Proof.
  unfold extractMessageText. exc_simpl.
  destruct (match ChatMessage.content message with
            | JStr s => _ | JArr blocks => _ | _ => _ end) as [rawText|];
    [|discriminate].
  intros [= <-]. now exists rawText.
Qed.

(** The texts joined by [extractMessageText] for blocks typed as the
    interface says. *)
Lemma joined_texts (blocks : list jsval) :
  Forall text_is_string blocks ->
  exists with_text texts,
    filter_exc (fun block => text ← Js.get block "text"; mret (truthy text))
               blocks = Ok with_text /\
    map_exc (fun block => Js.get block "text") with_text = Ok texts /\
    List.map (fun item => match item with
                          | JUndefined | JNull => EmptyString
                          | _ => ToString item
                          end) texts
    = omap block_text blocks.
Proof.
  induction 1 as [|block blocks Hb _ (with_text & texts & Hf & Hm & Htexts)].
  - now exists [], [].
  - cbn [filter_exc omap list_omap]. rewrite Hf.
    destruct block as [| | | | | |props]; try contradiction.
    unfold text_is_string in Hb. unfold block_text. exc_simpl.
    destruct (Js.lookup_prop "text" props) as [| | | |s| |] eqn:Htext;
      try contradiction; simpl.
    + now exists with_text, texts.
    + now exists with_text, texts.
    + destruct (String.eqb_spec s "") as [->|Hne]; simpl.
      * now exists with_text, texts.
      * exists (JObj props :: with_text), (JStr s :: texts).
        split; [reflexivity|]. split.
        -- cbn [map_exc]. exc_simpl. now rewrite Htext, Hm.
        -- cbn [List.map]. now rewrite ToString_string, Htexts.
Qed.

End ExtractText.

(** X10.  [extractMessageText] never returns a backspace.  For plain
    text it is the repaired text; for a list of blocks it is the repair
    of the non-empty [text] fields joined by line feeds, the blocks
    without text being skipped, so a backspace at the start of one text
    reaches back into the join; any other content gives the empty
    string. *)
Theorem extractMessageText_repairs :
  forall ToString : jsval -> string,
    (forall s : string, ToString (JStr s) = s) ->
    (forall (message : ChatMessage.t) (r : string),
        extractMessageText ToString message = Ok r -> bs_free r) /\
    (forall (message : ChatMessage.t) (s : string),
        ChatMessage.content message = JStr s ->
        extractMessageText ToString message = Ok (processBackspaces s)) /\
    (forall (message : ChatMessage.t) (blocks : list jsval),
        ChatMessage.content message = JArr blocks ->
        Forall text_is_string blocks ->
        extractMessageText ToString message
        = Ok (processBackspaces
                (String.concat (String LF EmptyString)
                               (omap block_text blocks)))) /\
    (forall message : ChatMessage.t,
        match ChatMessage.content message with
        | JStr _ | JArr _ => True
        | _ => extractMessageText ToString message = Ok EmptyString
        end).
Proof.
  intros ToString HToString. repeat apply conj.
  - intros message r Hr.
    destruct (extractMessageText_result ToString message r Hr) as (raw & ->).
    apply processBackspaces_bs_free.
  - intros message s Hc. unfold extractMessageText. now rewrite Hc.
  - intros message blocks Hc Htyped. unfold extractMessageText. rewrite Hc.
    destruct (joined_texts ToString HToString blocks Htyped)
      as (with_text & texts & Hf & Hm & Htexts).
    exc_simpl. rewrite Hf, Hm. unfold Array_join. now rewrite Htexts.
  - intros message. unfold extractMessageText.
    destruct (ChatMessage.content message); try exact I; reflexivity.
Qed.

Lemma extractMessageText_repairs_witness :
  extractMessageText (fun v => match v with JStr s => s | _ => "" end)
    (message_with
       (JArr [JObj [("type", JStr "text"); ("text", JStr "ab")];
              JObj [("type", JStr "tool_use"); ("name", JStr "Bash")];
              JObj [("type", JStr "text"); ("text", JStr (String BS "c"))]]))
  = Ok "abc".
Proof.
  refine (proj1 (proj2 (proj2
            (extractMessageText_repairs
               (fun v => match v with JStr s => s | _ => "" end)
               (fun s => eq_refl))))
            (message_with _)
            [JObj [("type", JStr "text"); ("text", JStr "ab")];
             JObj [("type", JStr "tool_use"); ("name", JStr "Bash")];
             JObj [("type", JStr "text"); ("text", JStr (String BS "c"))]]
            eq_refl _).
  repeat constructor.
Defined.

Lemma block_children_spec (index : nat) (blocks : list jsval) :
  List.map child_block (block_children index blocks) = blocks /\
  List.map child_key (block_children index blocks)
  = List.seq index (List.length blocks).
Proof.
  revert index. induction blocks as [|block rest IH]; intros index.
  - now split.
  - destruct (IH (S index)) as [Hblocks Hkeys].
    cbn [block_children List.map List.length List.seq].
    now rewrite Hblocks, Hkeys.
Qed.

(** X11.  For a list of blocks [MessageRenderer] returns one
    [ContentBlockRenderer] child per block, in order, keyed by its
    position, so the keys are pairwise distinct; it does not look into
    the blocks, whatever they are.  When the blocks are objects,
    [ContentBlockRenderer] returns an element for the block of every
    child.  Plain text goes to the text component and any other content
    to the debug panel. *)
Theorem MessageRenderer_blocks :
  (forall (message : ChatMessage.t) (blocks : list jsval),
      ChatMessage.content message = JArr blocks ->
      exists children,
        MessageRenderer message = BlockContent children /\
        List.map child_block children = blocks /\
        List.map child_key children = List.seq 0 (List.length blocks) /\
        NoDup (List.map child_key children)) /\
  (forall (message : ChatMessage.t) (blocks : list jsval)
          (children : list BlockChild),
      ChatMessage.content message = JArr blocks ->
      Forall is_object blocks ->
      MessageRenderer message = BlockContent children ->
      Forall (fun child =>
                exists e, ContentBlockRenderer (child_block child) = Ok e)
             children) /\
  (forall (message : ChatMessage.t) (s : string),
      ChatMessage.content message = JStr s ->
      MessageRenderer message = TextContent s) /\
  (forall message : ChatMessage.t,
      match ChatMessage.content message with
      | JStr _ | JArr _ => True
      | other => MessageRenderer message = UnexpectedContent other
      end).
Proof.
  repeat apply conj.
  - intros message blocks Hc. unfold MessageRenderer. rewrite Hc.
    destruct (block_children_spec 0 blocks) as [Hblocks Hkeys].
    eexists. split; [reflexivity|]. split; [exact Hblocks|].
    split; [exact Hkeys|]. rewrite Hkeys. apply NoDup_ListNoDup, List.seq_NoDup.
  - intros message blocks children Hc Hobj. unfold MessageRenderer. rewrite Hc.
    intros [= <-].
    destruct (block_children_spec 0 blocks) as [Hblocks _].
    rewrite <- Hblocks in Hobj. clear Hblocks Hc.
    induction (block_children 0 blocks) as [|child rest IH]; [constructor|].
    cbn [List.map] in Hobj. inversion Hobj as [|? ? Hchild Hrest]; subst.
    constructor; [|now apply IH].
    destruct (child_block child) as [| | | | | |props]; try contradiction.
    apply ContentBlockRenderer_object_ok.
  - intros message s Hc. unfold MessageRenderer. now rewrite Hc.
  - intros message. unfold MessageRenderer.
    destruct (ChatMessage.content message); try exact I; reflexivity.
Qed.

Lemma MessageRenderer_blocks_witness :
  MessageRenderer
    (message_with (JArr [JObj [("type", JStr "thinking")];
                         JObj [("type", JStr "text"); ("text", JStr "hi")]]))
  = BlockContent
      [{| child_key := 0; child_block := JObj [("type", JStr "thinking")] |};
       {| child_key := 1;
          child_block := JObj [("type", JStr "text"); ("text", JStr "hi")] |}]
  /\
  Forall (fun child => exists e, ContentBlockRenderer (child_block child) = Ok e)
    [{| child_key := 0; child_block := JObj [("type", JStr "thinking")] |};
     {| child_key := 1;
        child_block := JObj [("type", JStr "text"); ("text", JStr "hi")] |}].
Proof.
  split; [reflexivity|].
  refine (proj1 (proj2 MessageRenderer_blocks) (message_with _)
                [JObj [("type", JStr "thinking")];
                 JObj [("type", JStr "text"); ("text", JStr "hi")]]
                _ eq_refl _ eq_refl).
  repeat constructor.
Defined.

(** ** The text component *)

Section TextComponent.

Lemma trimEnd_empty (s : string) : trimEnd s = EmptyString <-> all_whitespace s.
Proof.
  unfold all_whitespace. induction s as [|c rest IH]; cbn [trimEnd list_ascii_of_string].
  - split; [constructor | reflexivity].
  - destruct (trimEnd rest) as [|k kept].
    + destruct (is_whitespace c) eqn:Hc.
      * split; [intros _; constructor; [exact Hc | now apply IH] | reflexivity].
      * split; [discriminate | intros H; inversion H; congruence].
    + split; [discriminate|]. intros H. inversion H as [|? ? _ Hrest]; subst.
      apply IH in Hrest. discriminate Hrest.
Qed.

Lemma trimStart_whitespace (s : string) :
  all_whitespace (trimStart s) <-> all_whitespace s.
Proof.
  unfold all_whitespace. induction s as [|c rest IH]; cbn [trimStart]; [tauto|].
  destruct (is_whitespace c) eqn:Hc; [|tauto].
  rewrite IH. cbn [list_ascii_of_string]. split.
  - now constructor.
  - intros H. now inversion H.
Qed.

Lemma trim_empty (s : string) : trim s = EmptyString <-> all_whitespace s.
Proof. unfold trim. now rewrite trimEnd_empty, trimStart_whitespace. Qed.

End TextComponent.

(** X12.  [MessageText] draws nothing exactly when its content is all
    white space.  The test is made before the backspaces are resolved:
    a visible character followed by a backspace passes it and is drawn
    as the empty text.  What is drawn never holds a backspace, and text
    without backspaces is drawn as it is. *)
Theorem MessageText_blank_test :
  (forall content : string,
      MessageText_markdown content = None <-> all_whitespace content) /\
  (forall c : ascii,
      is_whitespace c = false -> c <> BS ->
      MessageText_markdown (String c (String BS EmptyString))
      = Some EmptyString) /\
  (forall content shown : string,
      MessageText_markdown content = Some shown -> bs_free shown) /\
  (forall content : string,
      bs_free content -> ~ all_whitespace content ->
      MessageText_markdown content = Some content).
Proof.
  split; [|split; [|split]].
  - intros content. unfold MessageText_markdown.
    destruct (String.eqb_spec (trim content) "") as [He|Hne].
    + apply trim_empty in He. tauto.
    + split; [discriminate|]. intros Hws. now apply trim_empty in Hws.
  - intros c Hc Hbs. unfold MessageText_markdown.
    destruct (String.eqb_spec (trim (String c (String BS EmptyString))) "")
      as [He|_].
    + apply trim_empty in He. inversion He; congruence.
    + f_equal. rewrite processBackspaces_as_fold.
      unfold repair_spec. cbn [list_ascii_of_string fold_left].
      unfold repair_step at 2.
      destruct (Ascii.eqb_spec c BS) as [|_]; [contradiction|].
      reflexivity.
  - intros content shown. unfold MessageText_markdown.
    destruct (String.eqb (trim content) ""); [discriminate|].
    intros [= <-]. apply processBackspaces_bs_free.
  - intros content Hfree Hblank. unfold MessageText_markdown.
    destruct (String.eqb_spec (trim content) "") as [He|_].
    + now apply trim_empty in He.
    + now rewrite processBackspaces_fixed.
Qed.

Lemma MessageText_blank_test_witness :
  MessageText_markdown (String "x"%char (String BS EmptyString))
  = Some EmptyString.
Proof.
  apply (proj1 (proj2 MessageText_blank_test) "x"%char).
  - reflexivity.
  - discriminate.
Defined.

(** ** The code component *)

Section CodeComponent.

Lemma take_word_word (s : string) : word (take_word s).
Proof.
  unfold word. induction s as [|c rest IH]; cbn [take_word]; [constructor|].
  destruct (is_word_char c) eqn:Hc; [now constructor | constructor].
Qed.

Lemma take_word_all (w : string) : word w -> take_word w = w.
Proof.
  unfold word. induction w as [|c rest IH]; [reflexivity|].
  cbn [list_ascii_of_string take_word]. intros H. inversion H as [|? ? Hc Hrest]; subst.
  rewrite Hc. f_equal. now apply IH.
Qed.

Lemma exec_language_word (className language : string) :
  exec_language className = Some language ->
  language <> EmptyString /\ word language.
Proof.
  induction className as [|c rest IH]; [discriminate|].
  cbn [exec_language].
  destruct (strip_prefix "language-" (String c rest)) as [after|]; [|exact IH].
  pose proof (take_word_word after) as Hw.
  destruct (take_word after) as [|a w]; [exact IH|].
  intros [= <-]. split; [discriminate | exact Hw].
Qed.

Lemma strip_prefix_app (p s : string) : strip_prefix p (p ++ s) = Some s.
Proof.
  induction p as [|a p IH]; [now destruct s|].
  cbn [String.append strip_prefix]. now rewrite Ascii.eqb_refl.
Qed.

Lemma includes_prefix (p s : string) : JsString.includes (p ++ s) p = true.
Proof. apply includes_substring. now exists EmptyString, s. Qed.

Lemma strip_final_newline_spec (s : string) :
  (exists t, s = t ++ String LF EmptyString /\ strip_final_newline s = t) \/
  ((forall t, s <> t ++ String LF EmptyString) /\ strip_final_newline s = s).
Proof.
  induction s as [|c rest IH].
  - right. split; [intros [|? ?]; discriminate | reflexivity].
  - destruct rest as [|d rest'].
    + cbn [strip_final_newline].
      destruct (Ascii.eqb_spec c LF) as [->|Hne].
      * left. now exists EmptyString.
      * right. split; [|reflexivity].
        intros [|a [|b t]]; simpl; intros [=]; congruence.
    + change (strip_final_newline (String c (String d rest')))
        with (String c (strip_final_newline (String d rest'))).
      destruct IH as [(t & Ht & Hs) | (Hnone & Hs)].
      * left. exists (String c t). split.
        -- cbn [String.append]. f_equal. exact Ht.
        -- f_equal. exact Hs.
      * right. split; [|f_equal; exact Hs].
        intros [|a t]; cbn [String.append]; intros [=]; subst.
        now apply (Hnone t).
Qed.

End CodeComponent.

(** X13.  Code is drawn as a block exactly when its class name contains
    "language-".  The language of a block is then "text" or a non-empty
    run of word characters (letters, digits, underscore), cut at the
    first other character: the class "language-" followed by a word gives
    that word, and "language-c++" gives "c".  The code loses at most one
    final line feed. *)
Theorem code_component_language :
  (forall (className : option string) (children : string),
      code_component className children <> InlineCode <->
      exists c, className = Some c /\ JsString.includes c "language-" = true) /\
  (forall (className : option string) (children language code : string),
      code_component className children = BlockCode language code ->
      (language = "text" \/ (language <> "" /\ word language)) /\
      code = strip_final_newline children) /\
  (forall w rest children : string,
      w <> "" -> word w -> take_word rest = EmptyString ->
      code_component (Some ("language-" ++ w ++ rest)) children
      = BlockCode w (strip_final_newline children)) /\
  (forall children : string,
      (exists t, children = t ++ String LF EmptyString /\
                 strip_final_newline children = t) \/
      ((forall t, children <> t ++ String LF EmptyString) /\
       strip_final_newline children = children)).
Proof.
  split; [|split; [|split]].
  - intros className children. unfold code_component.
    destruct className as [c|]; simpl.
    + destruct (JsString.includes c "language-") eqn:Hinc; simpl; split.
      * intros _. now exists c.
      * intros _. discriminate.
      * intros H. now contradiction H.
      * intros (c' & [= <-] & H). congruence.
    + split; [intros H; now contradiction H | intros (c & H & _); discriminate H].
  - intros className children language code. unfold code_component.
    destruct (negb _); [discriminate|].
    destruct (exec_language _) as [l|] eqn:Hexec; intros [= <- <-].
    + split; [right; now apply (exec_language_word _ _ Hexec) | reflexivity].
    + split; [now left | reflexivity].
  - intros w rest children Hne Hw Hrest. unfold code_component.
    rewrite (includes_prefix "language-" (w ++ rest)). cbn [negb].
    assert (Hexec : exec_language ("language-" ++ w ++ rest) = Some w).
    { change ("language-" ++ w ++ rest)
        with (String "l"%char ("anguage-" ++ w ++ rest)).
      cbn [exec_language].
      change (String "l"%char ("anguage-" ++ w ++ rest))
        with ("language-" ++ w ++ rest).
      rewrite strip_prefix_app.
      assert (Htake : take_word (w ++ rest) = w).
      { clear Hne. unfold word in Hw.
        induction w as [|a w IH]; [exact Hrest|].
        cbn [String.append take_word list_ascii_of_string] in *.
        inversion Hw as [|? ? Ha Hw']; subst. rewrite Ha. f_equal.
        now apply IH. }
      rewrite Htake. destruct w; [contradiction | reflexivity]. }
    now rewrite Hexec.
  - exact strip_final_newline_spec.
Qed.

Lemma code_component_language_witness :
  code_component (Some "language-c++") "int x;" = BlockCode "c" "int x;".
Proof.
  apply (proj1 (proj2 (proj2 code_component_language)) "c" "++" "int x;").
  - discriminate.
  - repeat constructor.
  - reflexivity.
Defined.

(** ** The tool components *)

Section ToolComponents.

Variable JSON_parse : string -> exc jsval.

Lemma scraped_tasks_null_or_truthy (s : string) :
  scraped_tasks JSON_parse s = JNull \/
  truthy (scraped_tasks JSON_parse s) = true.
Proof.
  unfold scraped_tasks.
  destruct (Js.match_braces s); [|now left].
  destruct (JSON_parse _) as [[| | | | | |fields]|]; try now left.
  destruct (Js.lookup_prop "newTodos" fields); (now left) || (now right).
Qed.

(** [todoData] is [null] or truthy, and is only set on a todo result. *)
Lemma todoData_null_or_truthy (props : list (string * jsval)) :
  content_is_text (Js.lookup_prop "content" props) ->
  exists isTodo data,
    isTodoResult (JObj props) = Ok isTodo /\
    todoData JSON_parse (JObj props) = Ok data /\
    (data = JNull \/ (truthy data = true /\ truthy isTodo = true)) /\
    (truthy isTodo = true -> truthy (Js.lookup_prop "content" props) = true).
Proof.
  intros Htext.
  destruct (Js.lookup_prop "content" props) as [| | | |s| |] eqn:Hc;
    try contradiction.
  - exists JUndefined, JNull. repeat split.
    + unfold isTodoResult. exc_simpl. now rewrite Hc.
    + apply todoData_no_content. now left.
    + now left.
    + discriminate.
  - exists JUndefined, JNull. repeat split.
    + unfold isTodoResult. exc_simpl. now rewrite Hc.
    + apply todoData_no_content. now right.
    + now left.
    + discriminate.
  - eexists _, _. split; [apply (isTodoResult_text props s Hc)|].
    split; [apply (todoData_text JSON_parse props s Hc)|].
    destruct (has_marker s) eqn:Hm; simpl.
    + split.
      * destruct (truthy (structured_newTodos _)) eqn:Hs.
        -- now right.
        -- destruct (scraped_tasks_null_or_truthy s) as [->| ->];
             [now left | now right].
      * intros _. destruct (String.eqb_spec s "") as [->|]; [discriminate Hm | reflexivity].
    + split; [now left | discriminate].
Qed.

End ToolComponents.

(** X14.  The "Result" region of [ToolUseBlock] never shows "No result
    content": that branch needs a block with neither content nor
    structured result, for which the region is not drawn at all.  When
    the region shows a task list, [ToolResultBlock] extracts the same
    list from the same block. *)
Theorem ToolUseBlock_result_cases :
  (forall (block : jsval) (r : ToolUseResult),
      ToolUseBlock_result block = Ok (Some r) -> r <> NoResultContent) /\
  (forall (parse : string -> exc jsval) (props : list (string * jsval))
          (text todos : jsval),
      ToolUseBlock_result (JObj props)
      = Ok (Some (TodoWriteResult text (Some todos))) ->
      todoData parse (JObj props) = Ok todos) /\
  (forall props : list (string * jsval),
      truthy (Js.lookup_prop "content" props) = false ->
      truthy (Js.lookup_prop "tool_use_result" props) = false ->
      ToolUseBlock_result (JObj props) = Ok None).
Proof.
  repeat apply conj.
  - intros block r. unfold ToolUseBlock_result, Js.or. exc_simpl.
    destruct (Js.get block "content") as [content|]; [|discriminate].
    destruct (Js.get block "tool_use_result") as [tur|]; [|discriminate].
    destruct (truthy tur) eqn:Htur.
    + assert (Hany : truthy (if truthy content then content else tur) = true)
        by (destruct (truthy content) eqn:Hc; [exact Hc | exact Htur]).
      rewrite Hany.
      destruct (Js.opt_includes content MARKER_MODIFIED) as [isTodo|];
        [|intros H; discriminate H].
      destruct (truthy isTodo);
        [destruct (Js.get tur "newTodos"); [|intros H; discriminate H]|];
        intros [= <-]; discriminate.
    + destruct (truthy content) eqn:Hcontent.
      * rewrite Hcontent. intros [= <-]. discriminate.
      * rewrite Htur. intros H; discriminate H.
  - intros parse props text todos.
    unfold ToolUseBlock_result, todoData, isTodoResult, Js.or. exc_simpl.
    set (content := Js.lookup_prop "content" props).
    set (tur := Js.lookup_prop "tool_use_result" props).
    destruct (truthy tur) eqn:Htur.
    + assert (Hany : truthy (if truthy content then content else tur) = true)
        by (destruct (truthy content) eqn:Hc; [exact Hc | exact Htur]).
      rewrite Hany.
      destruct (Js.opt_includes content MARKER_MODIFIED) as [isTodo|];
        [|intros H; discriminate H].
      destruct (truthy isTodo) eqn:HisTodo; [|intros H; discriminate H].
      destruct (Js.get tur "newTodos") as [newTodos|];
        [|intros H; discriminate H].
      destruct (truthy newTodos) eqn:Hnew; [|intros H; discriminate H].
      intros [= _ <-]. now rewrite HisTodo.
    + destruct (truthy content) eqn:Hc.
      * rewrite Hc. intros H; discriminate H.
      * rewrite Htur. intros H; discriminate H.
  - intros props Hc Ht. unfold ToolUseBlock_result, Js.or. exc_simpl.
    now rewrite Hc, Ht.
Qed.

Lemma ToolUseBlock_result_cases_witness :
  todoData sample_parse
    (JObj [("content", JStr "Todos have been modified successfully");
           ("tool_use_result", JObj [("newTodos", JArr [JStr "t"])])])
  = Ok (JArr [JStr "t"]).
Proof.
  exact (proj1 (proj2 ToolUseBlock_result_cases) sample_parse
               [("content", JStr "Todos have been modified successfully");
                ("tool_use_result", JObj [("newTodos", JArr [JStr "t"])])]
               (JStr "Todos have been modified successfully")
               (JArr [JStr "t"]) eq_refl).
Defined.

(** X15.  For a block whose content is a string or absent,
    [ToolResultBlock] does not throw; the extracted task list is [null] or
    truthy, and is set only on a todo result.  A todo result is always
    drawn as the panel "Todo List Updated", open or not, never as the
    "Show tool result" button, and its body is the task list when one was
    extracted and the raw content otherwise, never "No content".  Any
    other result is the button until it is expanded. *)
Theorem ToolResultBlock_view_cases :
  forall (parse : string -> exc jsval) (props : list (string * jsval))
         (isExpanded showDebugInfo : bool),
    content_is_text (Js.lookup_prop "content" props) ->
    exists isTodo data,
      isTodoResult (JObj props) = Ok isTodo /\
      todoData parse (JObj props) = Ok data /\
      (data = JNull \/ (truthy data = true /\ truthy isTodo = true)) /\
      (truthy isTodo = true ->
       exists body,
         ToolResultBlock_view parse (JObj props) isExpanded showDebugInfo
         = Ok (ResultPanel "Todo List Updated" isExpanded body) /\
         body <> NoContent /\
         (truthy data = true -> exists debug, body = TodoBody data debug) /\
         (data = JNull ->
          body = ContentBody (Js.lookup_prop "content" props))) /\
      (truthy isTodo = false ->
       ToolResultBlock_view parse (JObj props) isExpanded showDebugInfo
       = Ok (if isExpanded then
               ResultPanel "Tool Result" true
                 (if truthy (Js.lookup_prop "content" props)
                  then ContentBody (Js.lookup_prop "content" props)
                  else NoContent)
             else ShowToolResultButton)).
Proof.
  intros parse props isExpanded showDebugInfo Htext.
  destruct (todoData_null_or_truthy parse props Htext)
    as (isTodo & data & HisTodo & Hdata & Hinv & Hcontent).
  exists isTodo, data. repeat apply conj; try assumption.
  - intros Htodo. specialize (Hcontent Htodo).
    unfold ToolResultBlock_view. rewrite HisTodo, Hdata. exc_simpl.
    rewrite Htodo, Hcontent. simpl.
    destruct (truthy data) eqn:Htruthy.
    + eexists. repeat split; [discriminate | eauto |].
      intros ->. discriminate Htruthy.
    + eexists. repeat split; [discriminate | discriminate].
  - intros Htodo. unfold ToolResultBlock_view. rewrite HisTodo, Hdata.
    exc_simpl. rewrite Htodo. simpl. destruct isExpanded; reflexivity.
Qed.

Lemma ToolResultBlock_view_cases_witness :
  exists isTodo data,
    isTodoResult (JObj [("content", JStr sample_rawText)]) = Ok isTodo /\
    todoData sample_parse (JObj [("content", JStr sample_rawText)]) = Ok data /\
    (data = JNull \/ (truthy data = true /\ truthy isTodo = true)).
Proof.
  destruct (ToolResultBlock_view_cases sample_parse
              [("content", JStr sample_rawText)] false false I)
    as (isTodo & data & H1 & H2 & H3 & _).
  now exists isTodo, data.
Defined.

(** ** The task list component *)

Section TodoListFacts.





End TodoListFacts.



(** ** More on the scrape and on text repair *)

Section MoreRepair.

Lemma fold_repair_app (a b : list ascii) (buf : string) :
  fold_left repair_step (a ++ b)%list buf
  = fold_left repair_step b (fold_left repair_step a buf).
Proof. apply fold_left_app. Qed.

Lemma list_ascii_app (a b : string) :
  list_ascii_of_string (a ++ b)
  = (list_ascii_of_string a ++ list_ascii_of_string b)%list.
Proof. induction a as [|c a IH]; simpl; [reflexivity | now rewrite IH]. Qed.

Lemma length_drop_last (buf : string) :
  String.length (drop_last buf) = String.length buf - 1.
Proof.
  destruct (string_snoc_inv buf) as [-> | (t & c & ->)]; [reflexivity|].
  rewrite drop_last_push, length_push. lia.
Qed.

Lemma length_fold_repair (l : list ascii) (buf : string) :
  String.length (fold_left repair_step l buf)
  <= String.length buf + List.length l.
Proof.
  revert buf. induction l as [|c l IH]; intros buf; simpl; [lia|].
  etransitivity; [apply IH|]. unfold repair_step.
  destruct (Ascii.eqb c BS).
  - rewrite length_drop_last. lia.
  - rewrite length_push. lia.
Qed.

Lemma length_list_ascii (s : string) :
  List.length (list_ascii_of_string s) = String.length s.
Proof. induction s; simpl; [reflexivity | now f_equal]. Qed.

End MoreRepair.

(** X17.  The scrape finds a text to parse exactly when the raw text has an
    opening brace with a closing brace somewhere after it. *)
Theorem match_braces_finds_pair :
  forall s : string,
    Js.match_braces s = None <->
    (forall pre rest : string,
        s = pre ++ String "{"%char rest -> ~ occurs "}"%char rest).
Proof.
  intros s. split.
  - apply match_braces_none.
  - intros Hnone. destruct (Js.match_braces s) as [blob|] eqn:Hm; [|reflexivity].
    exfalso.
    destruct (match_braces_some s blob Hm) as (pre & body & post & -> & -> & _).
    apply (Hnone pre ((body ++ String "}"%char EmptyString) ++ post)).
    + reflexivity.
    + rewrite !occurs_app. left. right. unfold occurs. simpl. now left.
Qed.

Lemma match_braces_finds_pair_witness :
  Js.match_braces "done } now { open" = None /\
  ~ occurs "}"%char " open".
Proof.
  split; [reflexivity|].
  exact (proj1 (match_braces_finds_pair "done } now { open") eq_refl
               "done } now " " open" eq_refl).
Defined.

(** X18.  [processBackspaces] never lengthens a text; text without
    backspaces appended to an input comes out appended to the repaired
    input; and a text of backspaces alone is repaired to nothing. *)
Theorem processBackspaces_length_and_append :
  (forall s : string,
      String.length (processBackspaces s) <= String.length s) /\
  (forall a b : string,
      bs_free b ->
      processBackspaces (a ++ b) = processBackspaces a ++ b) /\
  (forall s : string,
      Forall (fun c => c = BS) (list_ascii_of_string s) ->
      processBackspaces s = EmptyString).
Proof.
  repeat apply conj.
  - intros s. rewrite processBackspaces_as_fold. unfold repair_spec.
    etransitivity; [apply length_fold_repair|].
    simpl. now rewrite length_list_ascii.
  - intros a b Hfree. rewrite !processBackspaces_as_fold. unfold repair_spec.
    rewrite list_ascii_app, fold_repair_app.
    now apply fold_repair_bs_free.
  - intros s Hall. rewrite processBackspaces_as_fold. unfold repair_spec.
    induction Hall as [|c l -> _ IH]; [reflexivity | exact IH].
Qed.

Lemma processBackspaces_length_and_append_witness :
  processBackspaces (("helo" ++ String BS "lo") ++ ", world")
  = processBackspaces ("helo" ++ String BS "lo") ++ ", world".
Proof.
  apply (proj1 (proj2 processBackspaces_length_and_append)).
  unfold bs_free. simpl. intros H.
  repeat (destruct H as [H|H]; [discriminate H|]). exact H.
Defined.

(** X19.  The title of the placeholder session is "Search Result: ", at
    most 50 characters of the snippet, and "...": between 18 and 68
    characters, whatever the snippet. *)
Theorem placeholder_title_length :
  forall (projects : option (list ProjectFolder.t)) (result : SearchResult.t)
         (c : Clock),
    (projects = None \/
     exists ps, projects = Some ps /\
       Forall (fun s => ChatSession.id s <> SearchResult.session_id result)
              (all_sessions ps)) ->
    String.length
      (ChatSession.title (fst (handleSearchResultClick projects result c)))
    = 18 + Nat.min 50 (String.length (SearchResult.snippet result)) /\
    String.length
      (ChatSession.title (fst (handleSearchResultClick projects result c)))
    <= 68.
Proof.
  intros projects result c Hnone.
  assert (Hres : handleSearchResultClick projects result c
                 = (placeholder result (readings c (taken c))
                                (readings c (S (taken c))),
                    {| readings := readings c; taken := S (S (taken c)) |})).
  { destruct Hnone as [-> | (ps & -> & Hno)]; [reflexivity|].
    unfold handleSearchResultClick.
    rewrite find_session_all, (find_no_match _ _ Hno). reflexivity. }
  rewrite Hres. cbn [fst placeholder ChatSession.title].
  destruct (slice_0_prefix 50 (SearchResult.snippet result)) as (rest & _ & Hlen).
  assert (Happ : forall a b, String.length (a ++ b)
                             = String.length a + String.length b).
  { intros a b. induction a as [|x a IH]; simpl; [reflexivity | now rewrite IH]. }
  rewrite !Happ, Hlen.
  change (String.length "Search Result: ") with 15.
  change (String.length "...") with 3. lia.
Qed.

Lemma placeholder_title_length_witness :
  String.length
    (ChatSession.title (fst (handleSearchResultClick None hit_tool sample_clock)))
  <= 68.
Proof.
  apply (placeholder_title_length None hit_tool sample_clock). now left.
Defined.
